(** * chproxy: the reverse proxy core (proxy.go, metrics)

    A shallow embedding of the request path of the proxy: topology
    construction ([ApplyConfig]), scope resolution ([getRequestScope]),
    host selection ([getHost]), the dispatcher ([ServeHTTP]) with its
    termination command ([killQueries]) and the observable transport
    ([RoundTrip]) with the metric vectors it feeds. *)

From Stdlib Require Import ZArith NArith.
From stdpp Require Import gmap strings list pretty.

Local Open Scope string_scope.
Local Open Scope list_scope.

(** ** Go values *)

(** A Go [error] made by [fmt.Errorf]: its message. *)
Definition error := string.

(** Functions that return [(T, error)]. *)
Inductive result (A : Type) : Type :=
| Ok (a : A)
| Err (e : error).
Arguments Ok {A} a.
Arguments Err {A} e.

#[global] Instance result_bind : MBind result := fun A B k r =>
  match r with
  | Ok a => k a
  | Err e => Err e
  end.

(** [time.Duration]: a signed count of nanoseconds. *)
Definition Duration := Z.

(** [url.URL], the two fields the proxy reads. *)
Record URL := mkURL { Scheme : string; Host : string }.

(** The [String] method of [url.URL], for a URL made of a scheme and a host. *)
Definition URL_String (u : URL) : string := Scheme u +:+ "://" +:+ Host u.

(** ** Topology model *)

(** Modelled from the spec: the declaration of [host] is not in the
    sources at hand; its fields are those [proxy.go] reads, an address and
    "a live count of currently running queries". *)
Record host := mkHost { addr : URL; runningQueries : N }.

(** Modelled from the spec: the declaration of [executionUser] is not in
    the sources at hand; its fields are those [proxy.go] reads and writes
    plus the live count of the data model. *)
Record executionUser := mkExecutionUser {
  name : string;
  password : string;
  maxConcurrentQueries : Z;
  maxExecutionTime : Duration;
  userRunningQueries : N
}.

(** Modelled from the spec: [initialUser] embeds an [executionUser] and adds
    the mapping to a cluster and to an execution user of that cluster. *)
Record initialUser := mkInitialUser {
  embedded : executionUser;
  toCluster : string;
  toUser : string
}.

Record cluster := mkCluster {
  hosts : list host;
  users : gmap string executionUser
}.

Record reverseProxy := mkReverseProxy {
  rp_users : gmap string initialUser;
  rp_clusters : gmap string cluster
}.

(** ** Load balancer: [cluster.getHost] *)

(** The body of the [for _, t := range c.hosts] loop, [idle] being the
    pointer kept across iterations ([None] is [nil]). *)
Fixpoint getHost_loop (idle : option host) (hs : list host) : option host :=
  match hs with
  | [] => idle
  | t :: rest =>
      if (runningQueries t =? 0)%N then Some t
      else
        let idle' :=
          match idle with
          | None => Some t
          | Some i =>
              if (runningQueries t <? runningQueries i)%N then Some t
              else Some i
          end in
        getHost_loop idle' rest
  end.

Definition getHost (c : cluster) : option host := getHost_loop None (hosts c).

(** [l !! i] is [h], no host of [l] runs fewer queries than [h], and every
    host before position [i] runs strictly more. *)
Definition first_least (l : list host) (i : nat) (h : host) : Prop :=
  l !! i = Some h
  /\ (forall j h', l !! j = Some h' -> (runningQueries h <= runningQueries h')%N)
  /\ (forall j h', (j < i)%nat -> l !! j = Some h' ->
        (runningQueries h < runningQueries h')%N).

Definition idle_inv (pre : list host) (idle : option host) : Prop :=
  match idle with
  | None => pre = []
  | Some m => exists i, first_least pre i m
  end.

(** ** Effects of a handler

    What a handler does is recorded as the sequence of calls it makes to
    its collaborators; a Go panic ends the run. *)

Inductive event :=
| EvRespondWithErr (e : error)            (* respondWithErr(rw, err) *)
| EvInc                                   (* s.inc() returned nil *)
| EvDec                                   (* s.dec() *)
| EvCounterInc (vec : string) (values : list string)
                                          (* vec.With(labels).Inc() *)
| EvForward (scheme target ua : string)   (* go rp.ReverseProxy.ServeHTTP(rw, req) *)
| EvCancel                                (* cancel() *)
| EvDoQuery (q address : string)          (* doQuery(q, addr) *)
| EvWrite (message : string).             (* rw.Write(message) *)

#[global] Instance event_eq_dec : EqDecision event.
Proof. solve_decision. Defined.

Inductive outcome (A : Type) : Type :=
| Returned (a : A)
| Panicked (msg : string).
Arguments Returned {A} a.
Arguments Panicked {A} msg.

Record io (A : Type) := mkIO { trace : list event; outcome_of : outcome A }.
Arguments mkIO {A} trace outcome_of.
Arguments trace {A} i.
Arguments outcome_of {A} i.

#[global] Instance io_ret : MRet io := fun A a => mkIO [] (Returned a).

#[global] Instance io_bind : MBind io := fun A B k m =>
  match outcome_of m with
  | Returned a => mkIO (trace m ++ trace (k a)) (outcome_of (k a))
  | Panicked msg => mkIO (trace m) (Panicked msg)
  end.

Definition emit (e : event) : io unit := mkIO [e] (Returned tt).
Definition panic {A} (msg : string) : io A := mkIO [] (Panicked msg).

(** [for _, x := range l { f(x) }] *)
Fixpoint forEach {A} (f : A -> io unit) (l : list A) : io unit :=
  match l with
  | [] => mret tt
  | x :: rest => f x;; forEach f rest
  end.


(** ** Configuration

    Modelled from the spec: package [config] is not in the sources at
    hand.  The fields are those [ApplyConfig] reads, and for a cluster's
    execution users "name, password, limits". *)

Record OutUser := mkOutUser {
  OutUser_Name : string;
  OutUser_Password : string;
  OutUser_MaxConcurrentQueries : Z;
  OutUser_MaxExecutionTime : Duration
}.

Record Cluster := mkConfigCluster {
  Cluster_Name : string;
  Cluster_Scheme : string;
  Cluster_Nodes : list string;
  Cluster_OutUsers : list OutUser
}.

Record GlobalUser := mkGlobalUser {
  GlobalUser_Name : string;
  GlobalUser_Password : string;
  GlobalUser_ToCluster : string;
  GlobalUser_ToUser : string;
  GlobalUser_MaxConcurrentQueries : Z;
  GlobalUser_MaxExecutionTime : Duration
}.

Record Config := mkConfig {
  Clusters : list Cluster;
  GlobalUsers : list GlobalUser;
  LogDebug : bool
}.

(** The proxy together with the logger's debug switch, which
    [ApplyConfig] sets. *)
Record world := mkWorld { rp : reverseProxy; debug : bool }.

(** ** Scope *)

(** Modelled from the spec: the declaration of [scope] is not in the
    sources at hand; it is the binding built by [getRequestScope].  The
    host is a pointer and may be [nil]. *)
Record scope := mkScope {
  s_initialUser : initialUser;
  s_executionUser : executionUser;
  s_cluster : cluster;
  s_host : option host
}.

(** [http.Response], the field the transport reads. *)
Record Response := mkResponse { Status : string }.

(** Which case of the [select] in [ServeHTTP] is taken. *)
Inductive race :=
| InitialUserTimeout      (* <-time.After(s.initialUser.maxExecutionTime) *)
| ExecutionUserTimeout    (* <-time.After(s.executionUser.maxExecutionTime) *)
| Completed.              (* <-c *)

(** ** Metric vectors *)

Record CounterVec := mkCounterVec { vec_name : string; variableLabels : list string }.

Definition statusCodes : CounterVec :=
  mkCounterVec "status_codes" ["target"; "code"].
Definition timeouts : CounterVec :=
  mkCounterVec "request_timeouts" ["initial_user"; "execution_user"; "host"].
Definition errors : CounterVec :=
  mkCounterVec "request_errors" ["host"; "message"].
Definition requestSum : CounterVec :=
  mkCounterVec "request_sum" ["initial_user"; "execution_user"; "host"].
Definition requestSuccess : CounterVec :=
  mkCounterVec "request_success" ["initial_user"; "execution_user"; "host"].

(** ** Notions used in the statements *)

(** The cluster a name denotes in a configuration: [ApplyConfig] stores the
    clusters in a map keyed by name, so the last entry of that name. *)
Fixpoint findCluster (cs : list Cluster) (n : string) : option Cluster :=
  match cs with
  | [] => None
  | c :: rest =>
      match findCluster rest n with
      | Some c' => Some c'
      | None => if decide (Cluster_Name c = n) then Some c else None
      end
  end.

(** An initial user whose target cluster is not configured, or whose
    target execution user is not among that cluster's execution users. *)
Definition dangling (cfg : Config) (u : GlobalUser) : Prop :=
  match findCluster (Clusters cfg) (GlobalUser_ToCluster u) with
  | None => True
  | Some c => GlobalUser_ToUser u ∉ (OutUser_Name <$> Cluster_OutUsers c)
  end.

(** The termination commands of a run: statement and address, in order. *)
Fixpoint doQueries (t : list event) : list (string * string) :=
  match t with
  | [] => []
  | EvDoQuery q a :: rest => (q, a) :: doQueries rest
  | _ :: rest => doQueries rest
  end.

(** The execution user a name denotes among a cluster's configured
    execution users, and the initial user a name denotes among the
    configured initial users: the last entry of that name, as in the maps. *)
Fixpoint findOutUser (out : list OutUser) (n : string) : option OutUser :=
  match out with
  | [] => None
  | o :: rest =>
      match findOutUser rest n with
      | Some o' => Some o'
      | None => if decide (OutUser_Name o = n) then Some o else None
      end
  end.

Fixpoint findGlobalUser (gus : list GlobalUser) (n : string) : option GlobalUser :=
  match gus with
  | [] => None
  | u :: rest =>
      match findGlobalUser rest n with
      | Some u' => Some u'
      | None => if decide (GlobalUser_Name u = n) then Some u else None
      end
  end.

(** The [executionUser] literal and the [initialUser] literal of
    [ApplyConfig], at a configured user. *)
Definition executionUserOf (o : OutUser) : executionUser :=
  {| name := OutUser_Name o;
     password := OutUser_Password o;
     maxConcurrentQueries := 0%Z;
     maxExecutionTime := 0%Z;
     userRunningQueries := 0%N |}.

Definition initialUserOf (u : GlobalUser) : initialUser :=
  {| embedded :=
       {| name := GlobalUser_Name u;
          password := EmptyString;
          maxConcurrentQueries := GlobalUser_MaxConcurrentQueries u;
          maxExecutionTime := GlobalUser_MaxExecutionTime u;
          userRunningQueries := 0%N |};
     toCluster := GlobalUser_ToCluster u;
     toUser := GlobalUser_ToUser u |}.

(** The label tuples a run adds to the vector [vec], the requests it
    forwards (scheme, host, User-Agent), what it writes to the client and
    how often it cancels the backend call. *)
Fixpoint counterIncs (vec : string) (t : list event) : list (list string) :=
  match t with
  | [] => []
  | EvCounterInc v values :: rest =>
      if decide (v = vec) then values :: counterIncs vec rest
      else counterIncs vec rest
  | _ :: rest => counterIncs vec rest
  end.

Fixpoint forwards (t : list event) : list (string * string * string) :=
  match t with
  | [] => []
  | EvForward sc h ua :: rest => (sc, h, ua) :: forwards rest
  | _ :: rest => forwards rest
  end.

Fixpoint writes (t : list event) : list string :=
  match t with
  | [] => []
  | EvWrite m :: rest => m :: writes rest
  | _ :: rest => writes rest
  end.

Fixpoint cancels (t : list event) : nat :=
  match t with
  | [] => 0
  | EvCancel :: rest => S (cancels rest)
  | _ :: rest => cancels rest
  end.

(** The initial user [u] has a cluster and an execution user in
    [clusters]. *)
Definition resolves (clusters : gmap string cluster) (u : GlobalUser) : Prop :=
  exists c eu, clusters !! GlobalUser_ToCluster u = Some c
               /\ users c !! GlobalUser_ToUser u = Some eu.

(** ** Sample data

    Concrete collaborators and configurations at which the results below
    are evaluated. *)

Module Sample.

Definition dq : string := String (Ascii.ascii_of_nat 34) EmptyString.

(** Quoting of a string without characters to escape. *)
Definition quote (s : string) : string := dq +:+ s +:+ dq.

Definition Duration_String (d : Duration) : string := pretty d +:+ "ns".

(** Seconds held exactly, as a count of nanoseconds. *)
Definition Seconds (d : Duration) : Z := d.
Definition int_of_seconds (x : Z) : Z := (x ÷ 1000000000)%Z.

Fixpoint split_scheme (acc s : string) : option (string * string) :=
  match s with
  | String (Ascii.Ascii false true false true true true false false)
      (String (Ascii.Ascii true true true true false true false false)
         (String (Ascii.Ascii true true true true false true false false) rest)) =>
      Some (acc, rest)
  | String ch rest => split_scheme (acc +:+ String ch EmptyString) rest
  | EmptyString => None
  end.

(** A parser of [scheme://host]. *)
Definition url_Parse (s : string) : result URL :=
  match split_scheme EmptyString s with
  | Some (sc, h) => Ok {| Scheme := sc; Host := h |}
  | None => Err "missing protocol scheme"
  end.

Definition Validate (cfg : Config) : option error := None.

(** A request reduced to its basic-auth credentials. *)
Definition basicAuth (req : string * string) : string * string := req.

(** An admission controller that lets every request in, and one that
    rejects every request. *)
Definition accept_all (s : scope) : option error := None.

Definition second : Duration := 1000000000%Z.

Definition web : OutUser :=
  {| OutUser_Name := "web"; OutUser_Password := "secret";
     OutUser_MaxConcurrentQueries := 4;
     OutUser_MaxExecutionTime := (30 * second)%Z |}.

Definition c1 : Cluster :=
  {| Cluster_Name := "c1"; Cluster_Scheme := "http";
     Cluster_Nodes := ["n1:8123"; "n2:8123"];
     Cluster_OutUsers := [web] |}.

Definition alice (target_cluster target_user : string) : GlobalUser :=
  {| GlobalUser_Name := "alice"; GlobalUser_Password := EmptyString;
     GlobalUser_ToCluster := target_cluster; GlobalUser_ToUser := target_user;
     GlobalUser_MaxConcurrentQueries := 2;
     GlobalUser_MaxExecutionTime := (10 * second)%Z |}.

Definition cfg (target_cluster target_user : string) : Config :=
  {| Clusters := [c1];
     GlobalUsers := [alice target_cluster target_user];
     LogDebug := true |}.

(** A cluster without nodes. *)
Definition cfg_no_nodes : Config :=
  {| Clusters := [ {| Cluster_Name := "c1"; Cluster_Scheme := "http";
                      Cluster_Nodes := []; Cluster_OutUsers := [web] |} ];
     GlobalUsers := [alice "c1" "web"];
     LogDebug := false |}.

Definition w0 : world :=
  {| rp := {| rp_users := ∅; rp_clusters := ∅ |}; debug := false |}.

Definition eu_web : executionUser :=
  {| name := "web"; password := "secret"; maxConcurrentQueries := 4;
     maxExecutionTime := (30 * second)%Z; userRunningQueries := 0%N |}.

Definition iu_alice (target_cluster target_user : string) : initialUser :=
  {| embedded := {| name := "alice"; password := "pw";
                    maxConcurrentQueries := 2;
                    maxExecutionTime := 10500000000%Z;
                    userRunningQueries := 0%N |};
     toCluster := target_cluster; toUser := target_user |}.

Definition host_at (h : string) (n : N) : host :=
  {| addr := {| Scheme := "http"; Host := h |}; runningQueries := n |}.

Definition cl (hs : list host) : cluster :=
  {| hosts := hs; users := {[ "web" := eu_web ]} |}.

(** A proxy with one cluster of hosts [hs] and the initial user alice,
    password pw, mapped to [target_user] of [target_cluster]. *)
Definition proxy (hs : list host) (target_cluster target_user : string)
  : reverseProxy :=
  {| rp_users := {[ "alice" := iu_alice target_cluster target_user ]};
     rp_clusters := {[ "c1" := cl hs ]} |}.

Definition two_hosts : list host := [host_at "n1:8123" 2; host_at "n2:8123" 1].

(** Hosts at running counts 0, 3, 1 and 2, 3, 1. *)
Definition hosts_031 : list host :=
  [host_at "n1:8123" 0; host_at "n2:8123" 3; host_at "n3:8123" 1].
Definition hosts_231 : list host :=
  [host_at "n1:8123" 2; host_at "n2:8123" 3; host_at "n3:8123" 1].

(** The scope of a request of alice on the proxy with [two_hosts]. *)
Definition scope_alice : scope :=
  {| s_initialUser := iu_alice "c1" "web";
     s_executionUser := eu_web;
     s_cluster := cl two_hosts;
     s_host := Some (host_at "n2:8123" 1) |}.

(** A world that already serves alice. *)
Definition w1 : world :=
  {| rp := proxy two_hosts "c1" "web"; debug := false |}.

(** A parser that refuses the node [bad]. *)
Definition url_Parse_strict (s : string) : result URL :=
  if decide (s = "http://bad") then Err "invalid URL" else url_Parse s.

(** A configuration with a node that does not parse. *)
Definition cfg_bad_node : Config :=
  {| Clusters := [ {| Cluster_Name := "c1"; Cluster_Scheme := "http";
                      Cluster_Nodes := ["n1:8123"; "bad"];
                      Cluster_OutUsers := [web] |} ];
     GlobalUsers := [alice "c1" "web"];
     LogDebug := false |}.

(** A second initial user, and a configuration whose second initial user
    is the first that cannot be mapped. *)
Definition bob (target_cluster target_user : string) : GlobalUser :=
  {| GlobalUser_Name := "bob"; GlobalUser_Password := "hunter2";
     GlobalUser_ToCluster := target_cluster; GlobalUser_ToUser := target_user;
     GlobalUser_MaxConcurrentQueries := 1;
     GlobalUser_MaxExecutionTime := (5 * second)%Z |}.

Definition cfg_users (gus : list GlobalUser) : Config :=
  {| Clusters := [c1]; GlobalUsers := gus; LogDebug := false |}.

(** The loader of a configuration file: one file exists. *)
Definition LoadFile (file : string) : result Config :=
  if decide (file = "config.yml") then Ok (cfg "c1" "web")
  else Err "no such file".

(** The world after the configuration [cfg c1 web] has been applied. *)
Definition installed : world :=
  {| rp :=
       {| rp_users := {[ "alice" := initialUserOf (alice "c1" "web") ]};
          rp_clusters :=
            {[ "c1" :=
                 {| hosts := [host_at "n1:8123" 0; host_at "n2:8123" 0];
                    users := {[ "web" := executionUserOf web ]} |} ]} |};
     debug := true |}.

End Sample.

Section Proxy.

(** *** Go's library, and the helpers of the repository that are not in
    the sources at hand *)

(** [strconv.Quote], the verb [%q]. *)
Variable quote : string -> string.
(** [time.Duration.String], the verb [%v] at a duration. *)
Variable Duration_String : Duration -> string.
(** [float64], [time.Duration.Seconds] and the conversion [int(x)], which
    drops the fraction. *)
Variable float64 : Type.
Variable Seconds : Duration -> float64.
Variable int_of_float64 : float64 -> Z.
(** [url.Parse]. *)
Variable url_Parse : string -> result URL.
(** [config.Config.Validate]. *)
Variable Validate : Config -> option error.
(** [http.Request] and the helper [basicAuth]. *)
Variable Request : Type.
Variable basicAuth : Request -> string * string.
(** [scope.inc]: [None] is the [nil] error, the slot is reserved. *)
Variable inc : scope -> option error.
(** [config.LoadFile]. *)
Variable LoadFile : string -> result Config.

(** *** [prometheus.CounterVec] *)

(** The values of [labels] in the order of the registered names; the first
    registered name without a value is an error. *)
Fixpoint labelValues (names : list string) (labels : gmap string string)
  : result (list string) :=
  match names with
  | [] => Ok []
  | n :: rest =>
      match labels !! n with
      | None => Err ("label name " +:+ quote n +:+ " missing in label map")
      | Some v => vs ← labelValues rest labels; Ok (v :: vs)
      end
  end.

(** [GetMetricWith]: the label map has as many entries as the vector has
    registered names, and a value for each of them. *)
Definition GetMetricWith (v : CounterVec) (labels : gmap string string)
  : result (list string) :=
  if decide (size labels = length (variableLabels v))
  then labelValues (variableLabels v) labels
  else Err "inconsistent label cardinality".

(** [v.With(labels).Inc()]: [With] panics where [GetMetricWith] fails. *)
Definition counterInc (v : CounterVec) (labels : gmap string string) : io unit :=
  match GetMetricWith v labels with
  | Ok values => emit (EvCounterInc (vec_name v) values)
  | Err e => panic e
  end.

(** *** [observableTransport.RoundTrip]

    [response] and [err] are what the embedded [http.Transport] returned
    for a request to [urlHost]. *)
Definition RoundTrip (urlHost : string) (response : option Response)
    (err : option error) : io (option Response * option error) :=
  match response with
  | Some r => counterInc statusCodes {[ "host" := urlHost; "code" := Status r ]}
  | None => mret tt
  end;;
  match err with
  | Some e => counterInc errors {[ "host" := urlHost; "message" := e ]}
  | None => mret tt
  end;;
  mret (response, err).

(** *** [reverseProxy.ApplyConfig] *)

(** [for i, node := range c.Nodes]: one host per node. *)
Fixpoint buildHosts (scheme : string) (nodes : list string) : result (list host) :=
  match nodes with
  | [] => Ok []
  | node :: rest =>
      a ← url_Parse (scheme +:+ "://" +:+ node);
      hs ← buildHosts scheme rest;
      Ok ({| addr := a; runningQueries := 0%N |} :: hs)
  end.

(** [for _, user := range c.OutUsers]: the fields that are not set keep
    their zero value. *)
Fixpoint buildUsers (us : gmap string executionUser) (out : list OutUser)
  : gmap string executionUser :=
  match out with
  | [] => us
  | user :: rest =>
      buildUsers
        (<[OutUser_Name user :=
             {| name := OutUser_Name user;
                password := OutUser_Password user;
                maxConcurrentQueries := 0%Z;
                maxExecutionTime := 0%Z;
                userRunningQueries := 0%N |}]> us)
        rest
  end.

(** [for _, c := range cfg.Clusters] *)
Fixpoint buildClusters (clusters : gmap string cluster) (cs : list Cluster)
  : result (gmap string cluster) :=
  match cs with
  | [] => Ok clusters
  | c :: rest =>
      hs ← buildHosts (Cluster_Scheme c) (Cluster_Nodes c);
      buildClusters
        (<[Cluster_Name c :=
             {| hosts := hs; users := buildUsers ∅ (Cluster_OutUsers c) |}]> clusters)
        rest
  end.

(** [for _, u := range cfg.GlobalUsers] *)
Fixpoint buildInitialUsers (clusters : gmap string cluster)
    (initialUsers : gmap string initialUser) (gus : list GlobalUser)
  : result (gmap string initialUser) :=
  match gus with
  | [] => Ok initialUsers
  | u :: rest =>
      match clusters !! GlobalUser_ToCluster u with
      | None =>
          Err ("error while mapping user " +:+ quote (GlobalUser_Name u)
               +:+ " to cluster " +:+ quote (GlobalUser_ToCluster u)
               +:+ ": no such cluster")
      | Some c =>
          match users c !! GlobalUser_ToUser u with
          | None =>
              Err ("error while mapping user " +:+ quote (GlobalUser_Name u)
                   +:+ " to cluster's " +:+ quote (GlobalUser_ToCluster u)
                   +:+ " user " +:+ quote (GlobalUser_ToUser u)
                   +:+ ": no such user")
          | Some _ =>
              buildInitialUsers clusters
                (<[GlobalUser_Name u :=
                     {| embedded :=
                          {| name := GlobalUser_Name u;
                             password := EmptyString;
                             maxConcurrentQueries := GlobalUser_MaxConcurrentQueries u;
                             maxExecutionTime := GlobalUser_MaxExecutionTime u;
                             userRunningQueries := 0%N |};
                        toCluster := GlobalUser_ToCluster u;
                        toUser := GlobalUser_ToUser u |}]> initialUsers)
                rest
          end
      end
  end.

(** The new generation: the clusters, then the initial users. *)
Definition buildTopology (cfg : Config) : result reverseProxy :=
  clusters ← buildClusters ∅ (Clusters cfg);
  initialUsers ← buildInitialUsers clusters ∅ (GlobalUsers cfg);
  Ok {| rp_users := initialUsers; rp_clusters := clusters |}.

Definition ApplyConfig (cfg : Config) (w : world) : option error * world :=
  match Validate cfg with
  | Some err => (Some err, w)
  | None =>
      match buildTopology cfg with
      | Err err => (Some err, w)
      | Ok new => (None, {| rp := new; debug := LogDebug cfg |})
      end
  end.

(** *** [NewReverseProxy] and [reverseProxy.ReloadConfig] *)

(** The configuration is applied to a proxy whose maps are [nil];
    [debug0] is the logger's switch at the call.  The proxy is returned
    together with the error. *)
Definition NewReverseProxy (cfg : Config) (debug0 : bool) : world * option error :=
  let w0 := {| rp := {| rp_users := ∅; rp_clusters := ∅ |}; debug := debug0 |} in
  let '(err, w) := ApplyConfig cfg w0 in
  (w, err).

Definition ReloadConfig (file : string) (w : world) : option error * world :=
  match LoadFile file with
  | Err err =>
      (Some ("can't load config " +:+ quote file +:+ ": " +:+ err), w)
  | Ok cfg => ApplyConfig cfg w
  end.

(** Every node of every configured cluster has an address that parses. *)
Definition nodesParse (cfg : Config) : Prop :=
  Forall (fun c =>
            Forall (fun node =>
                      exists a, url_Parse (Cluster_Scheme c +:+ "://" +:+ node) = Ok a)
                   (Cluster_Nodes c))
         (Clusters cfg).

(** *** [reverseProxy.getRequestScope] *)

Definition errInvalidCredentials (uname : string) : error :=
  "invalid username or password for user " +:+ quote uname.

Definition errUnknownCluster (iu : initialUser) : error :=
  "BUG: user " +:+ quote (name (embedded iu))
  +:+ " matches to unknown cluster " +:+ quote (toCluster iu).

Definition errUnknownUser (iu : initialUser) : error :=
  "BUG: user " +:+ quote (name (embedded iu))
  +:+ " matches to unknown user " +:+ quote (toUser iu)
  +:+ " at cluster " +:+ quote (toCluster iu).

Definition getRequestScope (p : reverseProxy) (req : Request) : result scope :=
  let '(uname, pass) := basicAuth req in
  match rp_users p !! uname with
  | None => Err (errInvalidCredentials uname)
  | Some iu =>
      if decide (password (embedded iu) <> pass)
      then Err (errInvalidCredentials uname)
      else
        match rp_clusters p !! toCluster iu with
        | None => Err (errUnknownCluster iu)
        | Some c =>
            match users c !! toUser iu with
            | None => Err (errUnknownUser iu)
            | Some eu =>
                Ok {| s_initialUser := iu;
                      s_executionUser := eu;
                      s_cluster := c;
                      s_host := getHost c |}
            end
        end
  end.

(** *** [cluster.killQueries] *)

Definition killQuery (condition : string) (elapsed : float64) : string :=
  "KILL QUERY WHERE " +:+ condition +:+ " AND elapsed >= "
  +:+ pretty (int_of_float64 elapsed).

Definition killQueries (c : cluster) (condition : string) (elapsed : float64)
  : io unit :=
  let addrs := map (fun h => URL_String (addr h)) (hosts c) in
  let q := killQuery condition elapsed in
  forEach (fun a => emit (EvDoQuery q a)) addrs.

(** *** [reverseProxy.ServeHTTP] *)

(** [s.host.addr]: reading through a [nil] pointer panics. *)
Definition hostAddr (s : scope) : io URL :=
  match s_host s with
  | Some h => mret (addr h)
  | None => panic "runtime error: invalid memory address or nil pointer dereference"
  end.

Definition userAgent (s : scope) : string :=
  "ClickHouseProxy: " +:+ name (embedded (s_initialUser s)).

Definition initialUserCondition (s : scope) : string :=
  "http_user_agent = '" +:+ userAgent s +:+ "'".

Definition executionUserCondition (s : scope) : string :=
  "initial_user = '" +:+ name (s_executionUser s) +:+ "'".

(** The [select] statement. *)
Definition resolveRace (s : scope) (label : gmap string string) (r : race)
  : io unit :=
  match r with
  | InitialUserTimeout =>
      let iu := embedded (s_initialUser s) in
      emit EvCancel;;
      counterInc timeouts label;;
      killQueries (s_cluster s) (initialUserCondition s)
        (Seconds (maxExecutionTime iu));;
      emit (EvWrite ("timeout for initial user " +:+ quote (name iu)
                     +:+ " exceeded: " +:+ Duration_String (maxExecutionTime iu)))
  | ExecutionUserTimeout =>
      let eu := s_executionUser s in
      emit EvCancel;;
      counterInc timeouts label;;
      killQueries (s_cluster s) (executionUserCondition s)
        (Seconds (maxExecutionTime eu));;
      emit (EvWrite ("timeout for execution user " +:+ quote (name eu)
                     +:+ " exceeded: " +:+ Duration_String (maxExecutionTime eu)))
  | Completed =>
      counterInc requestSuccess label
  end.

(** The [prometheus.Labels] literal of [ServeHTTP], [a] being
    [s.host.addr]. *)
Definition requestLabel (s : scope) (a : URL) : gmap string string :=
  {[ "initial_user" := name (embedded (s_initialUser s));
     "execution_user" := name (s_executionUser s);
     "host" := Host a ]}.

(** What [ServeHTTP] does once [s.inc()] has returned [nil]. *)
Definition dispatch (s : scope) (r : race) : io unit :=
  a ← hostAddr s;
  let label := requestLabel s a in
  counterInc requestSum label;;
  emit (EvForward (Scheme a) (Host a) (userAgent s));;
  resolveRace s label r;;
  emit EvDec.

Definition ServeHTTP (p : reverseProxy) (req : Request) (r : race) : io unit :=
  match getRequestScope p req with
  | Err err => emit (EvRespondWithErr err)
  | Ok s =>
      match inc s with
      | Some err => emit (EvRespondWithErr err)
      | None => emit EvInc;; dispatch s r
      end
  end.

(** *** The expected events of a run *)

(** The label values of a request, in the order of the registered names. *)
Definition labelValuesOf (s : scope) (a : URL) : list string :=
  [name (embedded (s_initialUser s)); name (s_executionUser s); Host a].

(** The events of the three cases of the [select]. *)
Definition raceTrace (s : scope) (a : URL) (r : race) : list event :=
  match r with
  | InitialUserTimeout =>
      let iu := embedded (s_initialUser s) in
      EvCancel :: EvCounterInc "request_timeouts" (labelValuesOf s a)
      :: map (fun h => EvDoQuery
                (killQuery (initialUserCondition s) (Seconds (maxExecutionTime iu)))
                (URL_String (addr h))) (hosts (s_cluster s))
      ++ [EvWrite ("timeout for initial user " +:+ quote (name iu)
                   +:+ " exceeded: " +:+ Duration_String (maxExecutionTime iu))]
  | ExecutionUserTimeout =>
      let eu := s_executionUser s in
      EvCancel :: EvCounterInc "request_timeouts" (labelValuesOf s a)
      :: map (fun h => EvDoQuery
                (killQuery (executionUserCondition s) (Seconds (maxExecutionTime eu)))
                (URL_String (addr h))) (hosts (s_cluster s))
      ++ [EvWrite ("timeout for execution user " +:+ quote (name eu)
                   +:+ " exceeded: " +:+ Duration_String (maxExecutionTime eu))]
  | Completed => [EvCounterInc "request_success" (labelValuesOf s a)]
  end.

(** ** Results on [getHost] *)

Lemma first_least_snoc_keep pre i m t :
  first_least pre i m ->
  (runningQueries m <= runningQueries t)%N ->
  first_least (pre ++ [t]) i m.
Proof.
  intros (Hi & Hmin & Hfst) Hle. repeat split.
  - rewrite lookup_app_l; [done | by eapply lookup_lt_Some].
  - intros j h' Hj. apply lookup_app_Some in Hj as [Hj | [_ Hj]].
    + by eapply Hmin.
    + apply list_lookup_singleton_Some in Hj as [_ <-]. done.
  - intros j h' Hlt Hj. apply lookup_app_Some in Hj as [Hj | [Hge _]].
    + by eapply Hfst.
    + apply lookup_lt_Some in Hi. lia.
Qed.

Lemma first_least_snoc_new pre t :
  (forall h', h' ∈ pre -> (runningQueries t < runningQueries h')%N) ->
  first_least (pre ++ [t]) (length pre) t.
Proof.
  intros Hlt. repeat split.
  - by rewrite list_lookup_middle.
  - intros j h' Hj. apply lookup_app_Some in Hj as [Hj | [_ Hj]].
    + apply N.lt_le_incl, Hlt. by eapply list_elem_of_lookup_2.
    + apply list_lookup_singleton_Some in Hj as [_ <-]. done.
  - intros j h' Hj Hl. rewrite lookup_app_l in Hl by done.
    apply Hlt. by eapply list_elem_of_lookup_2.
Qed.

Lemma getHost_loop_first_least rest : forall pre idle,
  (forall h, h ∈ pre -> runningQueries h <> 0%N) ->
  idle_inv pre idle ->
  pre ++ rest <> [] ->
  exists i h, getHost_loop idle rest = Some h /\ first_least (pre ++ rest) i h.
Proof.
  induction rest as [|t rest IH]; intros pre idle Hnz Hinv Hne; simpl.
  - rewrite app_nil_r in *. destruct idle as [m|]; simpl in Hinv.
    + destruct Hinv as [i Hi]. by exists i, m.
    + done.
  - destruct (N.eqb_spec (runningQueries t) 0) as [Hz | Hnz'].
    + exists (length pre), t. split; [done|]. repeat split.
      * by rewrite list_lookup_middle.
      * intros j h' _. lia.
      * intros j h' Hj Hl. rewrite lookup_app_l in Hl by done.
        apply list_elem_of_lookup_2, Hnz in Hl. lia.
    + replace (pre ++ t :: rest) with ((pre ++ [t]) ++ rest)
        by (by rewrite <- app_assoc).
      apply IH.
      * intros h Hh. apply elem_of_app in Hh as [Hh | Hh]; [by apply Hnz|].
        apply list_elem_of_singleton in Hh as ->. done.
      * destruct idle as [m|]; simpl in Hinv.
        -- destruct Hinv as [i Hi].
           destruct (N.ltb_spec (runningQueries t) (runningQueries m)) as [Hlt|Hge].
           ++ exists (length pre). apply first_least_snoc_new.
              intros h' Hh'. apply list_elem_of_lookup_1 in Hh' as [j Hj].
              destruct Hi as (_ & Hmin & _). specialize (Hmin j h' Hj). lia.
           ++ exists i. by apply first_least_snoc_keep.
        -- subst pre. exists 0%nat. apply (first_least_snoc_new []).
           intros h' Hh'. by apply elem_of_nil in Hh'.
      * by destruct pre.
Qed.

(** C3. For a cluster with at least one host, [getHost] returns the host at
    the first position of the host list whose running-queries count is the
    least of the cluster: no host runs fewer queries, and every host before
    it runs strictly more.  Hence a host with count 0 is returned as soon
    as it is met, and ties go to the earlier host. *)
Theorem getHost_first_least (c : cluster) :
  hosts c <> [] ->
  exists i h,
    getHost c = Some h
    /\ first_least (hosts c) i h
    /\ (forall k hk, hosts c !! k = Some hk -> runningQueries hk = 0%N ->
          runningQueries h = 0%N /\ (i <= k)%nat).
Proof.
  intros Hne.
  destruct (getHost_loop_first_least (hosts c) [] None) as (i & h & Hg & Hfl);
    [by intros h ?%elem_of_nil | done | done |].
  simpl in Hfl. exists i, h. split; [done|]. split; [done|].
  intros k hk Hk Hz. destruct Hfl as (Hi & Hmin & Hfst).
  pose proof (Hmin k hk Hk) as Hle. split; [lia|].
  destruct (decide (i <= k)%nat) as [|Hgt]; [done|].
  specialize (Hfst k hk ltac:(lia) Hk). lia.
Qed.

(** ** Results on [ApplyConfig] *)

Lemma buildUsers_lookup out : forall acc n eu,
  buildUsers acc out !! n = Some eu ->
  acc !! n = Some eu
  \/ (n ∈ (OutUser_Name <$> out)
      /\ maxConcurrentQueries eu = 0%Z /\ maxExecutionTime eu = 0%Z).
Proof.
  induction out as [|user rest IH]; intros acc n eu H; simpl in H; [by left|].
  apply IH in H as [H | (Hin & Hz)].
  - rewrite lookup_insert in H. case_decide as Hk.
    + injection H as <-. right. subst n. split; [|done].
      rewrite fmap_cons. apply elem_of_cons. by left.
    + by left.
  - right. split; [|done]. rewrite fmap_cons. apply elem_of_cons. by right.
Qed.

Lemma buildUsers_lookup_None out : forall acc n,
  acc !! n = None -> n ∉ (OutUser_Name <$> out) ->
  buildUsers acc out !! n = None.
Proof.
  induction out as [|user rest IH]; intros acc n Hacc Hn; simpl; [done|].
  rewrite fmap_cons in Hn. apply not_elem_of_cons in Hn as [Hne Hn].
  apply IH; [|done]. by rewrite lookup_insert_ne.
Qed.

(** What the map of clusters holds at a name once the loop over the
    configured clusters is done. *)
Lemma buildClusters_lookup cs : forall acc m n,
  buildClusters acc cs = Ok m ->
  match findCluster cs n with
  | Some c =>
      exists hs, buildHosts (Cluster_Scheme c) (Cluster_Nodes c) = Ok hs
        /\ m !! n = Some {| hosts := hs;
                            users := buildUsers ∅ (Cluster_OutUsers c) |}
  | None => m !! n = acc !! n
  end.
Proof.
  induction cs as [|c rest IH]; intros acc m n H; simpl in *.
  - by injection H as ->.
  - destruct (buildHosts (Cluster_Scheme c) (Cluster_Nodes c)) as [hs|e] eqn:Hhs;
      simpl in H; [|done].
    specialize (IH _ _ n H).
    destruct (findCluster rest n) as [c'|]; [done|].
    case_decide as Hname.
    + exists hs. split; [done|]. rewrite IH. subst n. apply lookup_insert_eq.
    + rewrite IH. by apply lookup_insert_ne.
Qed.

Lemma buildInitialUsers_dangling clusters gus : forall acc u,
  u ∈ gus ->
  (clusters !! GlobalUser_ToCluster u = None
   \/ exists c, clusters !! GlobalUser_ToCluster u = Some c
        /\ users c !! GlobalUser_ToUser u = None) ->
  exists e, buildInitialUsers clusters acc gus = Err e.
Proof.
  induction gus as [|g rest IH]; intros acc u Hin Hd.
  - by apply elem_of_nil in Hin.
  - simpl.
    destruct (clusters !! GlobalUser_ToCluster g) as [c|] eqn:Hc; [|by eexists].
    destruct (users c !! GlobalUser_ToUser g) as [eu|] eqn:Hu; [|by eexists].
    apply elem_of_cons in Hin as [-> | Hin].
    + destruct Hd as [Hd | (c' & Hc' & Hu')]; [congruence|].
      rewrite Hc in Hc'. injection Hc' as <-. congruence.
    + by eapply IH.
Qed.

Lemma ApplyConfig_error_keeps_world cfg w e w' :
  ApplyConfig cfg w = (Some e, w') -> w' = w.
Proof.
  unfold ApplyConfig. intros H.
  destruct (Validate cfg); [by injection H|].
  destruct (buildTopology cfg); by injection H.
Qed.

Lemma ApplyConfig_success cfg w w' :
  ApplyConfig cfg w = (None, w') ->
  buildTopology cfg = Ok (rp w') /\ debug w' = LogDebug cfg.
Proof.
  unfold ApplyConfig. intros H.
  destruct (Validate cfg); [done|].
  destruct (buildTopology cfg); [|done].
  by injection H as <-.
Qed.

Lemma buildTopology_clusters cfg new :
  buildTopology cfg = Ok new ->
  buildClusters ∅ (Clusters cfg) = Ok (rp_clusters new).
Proof.
  unfold buildTopology. intros H.
  destruct (buildClusters ∅ (Clusters cfg)) as [cl|]; simpl in H; [|done].
  destruct (buildInitialUsers cl ∅ (GlobalUsers cfg)); simpl in H; [|done].
  by injection H as <-.
Qed.

(** C1. The execution users that [ApplyConfig] constructs carry the name
    and the password of the configuration and no limit: in every cluster
    of the generation it installs, every execution user has
    [maxConcurrentQueries] and [maxExecutionTime] at the zero value,
    whatever the configuration says. *)
Theorem ApplyConfig_execution_user_limits_zero cfg w w' cname c uname eu :
  ApplyConfig cfg w = (None, w') ->
  rp_clusters (rp w') !! cname = Some c ->
  users c !! uname = Some eu ->
  maxConcurrentQueries eu = 0%Z /\ maxExecutionTime eu = 0%Z.
Proof.
  intros Happ Hc Hu.
  apply ApplyConfig_success in Happ as [Hb _].
  apply buildTopology_clusters in Hb.
  pose proof (buildClusters_lookup _ _ _ cname Hb) as Hl.
  destruct (findCluster (Clusters cfg) cname) as [cc|].
  - destruct Hl as (hs & _ & Hl). rewrite Hc in Hl. injection Hl as ->.
    simpl in Hu. apply buildUsers_lookup in Hu as [Hu | (_ & Hz)]; [|done].
    by rewrite lookup_empty in Hu.
  - rewrite Hc, lookup_empty in Hl. done.
Qed.

(** C4. [ApplyConfig] changes nothing unless it succeeds.  A configuration
    with an initial user whose cluster is not configured, or whose
    execution user is not among the execution users of its cluster, is
    refused with an error and the proxy keeps the maps it had; whatever
    the error, the maps are the ones from before the call; and when no
    error is returned both maps are those of the new generation. *)
Theorem ApplyConfig_atomic cfg w :
  (forall u, u ∈ GlobalUsers cfg -> dangling cfg u ->
     exists e, ApplyConfig cfg w = (Some e, w))
  /\ (forall e w', ApplyConfig cfg w = (Some e, w') -> w' = w)
  /\ (forall w', ApplyConfig cfg w = (None, w') ->
        buildTopology cfg = Ok (rp w')).
Proof.
  split; [|split].
  - intros u Hin Hd. unfold ApplyConfig.
    destruct (Validate cfg) as [e|]; [by eexists|].
    unfold buildTopology.
    destruct (buildClusters ∅ (Clusters cfg)) as [clusters|e] eqn:Hb;
      simpl; [|by eexists].
    destruct (buildInitialUsers_dangling clusters (GlobalUsers cfg) ∅ u Hin)
      as [e He]; [|rewrite He; by eexists].
    pose proof (buildClusters_lookup _ _ _ (GlobalUser_ToCluster u) Hb) as Hl.
    unfold dangling in Hd.
    destruct (findCluster (Clusters cfg) (GlobalUser_ToCluster u)) as [cc|].
    + destruct Hl as (hs & _ & Hl). right. eexists. split; [done|]. simpl.
      by apply buildUsers_lookup_None.
    + left. by rewrite Hl, lookup_empty.
  - intros e w'. apply ApplyConfig_error_keeps_world.
  - intros w' H. by apply ApplyConfig_success in H as [H _].
Qed.

(** ** Results on the metric vectors and [RoundTrip] *)

Lemma bind_returned {A B} (m : io A) (k : A -> io B) t a :
  m = mkIO t (Returned a) ->
  m ≫= k = mkIO (t ++ trace (k a)) (outcome_of (k a)).
Proof. by intros ->. Qed.

Lemma bind_panicked {A B} (m : io A) (k : A -> io B) t msg :
  m = mkIO t (Panicked msg) ->
  m ≫= k = mkIO t (Panicked msg).
Proof. by intros ->. Qed.

(** The label map of [RoundTrip] has no value for the registered name
    [target]. *)
Lemma statusCodes_With_panics urlHost code :
  counterInc statusCodes {[ "host" := urlHost; "code" := code ]}
  = panic ("label name " +:+ quote "target" +:+ " missing in label map").
Proof. reflexivity. Qed.

Lemma errors_With_ok urlHost message :
  counterInc errors {[ "host" := urlHost; "message" := message ]}
  = emit (EvCounterInc "request_errors" [urlHost; message]).
Proof. reflexivity. Qed.

Lemma request_With_ok (v : CounterVec) iu eu h :
  variableLabels v = ["initial_user"; "execution_user"; "host"] ->
  counterInc v {[ "initial_user" := iu; "execution_user" := eu; "host" := h ]}
  = emit (EvCounterInc (vec_name v) [iu; eu; h]).
Proof. destruct v as [n ls]. simpl. intros ->. reflexivity. Qed.

(** C2. Whenever the embedded transport hands back a response,
    [RoundTrip] asks the status-code vector for the labels [host] and
    [code]; the vector is registered with the names [target] and [code],
    so the lookup fails and the call panics before any counter is
    incremented. *)
Theorem RoundTrip_status_code_label_mismatch urlHost r err :
  RoundTrip urlHost (Some r) err
  = mkIO [] (Panicked ("label name " +:+ quote "target"
                       +:+ " missing in label map")).
Proof.
  unfold RoundTrip. rewrite statusCodes_With_panics. reflexivity.
Qed.

(** The sibling vector of transport errors is asked for the names it is
    registered with. *)
Lemma RoundTrip_error_counted urlHost e :
  RoundTrip urlHost None (Some e)
  = mkIO [EvCounterInc "request_errors" [urlHost; e]]
         (Returned (None, Some e)).
Proof.
  unfold RoundTrip. rewrite errors_With_ok. reflexivity.
Qed.

(** ** Results on [getRequestScope] *)

Lemma getRequestScope_unknown p req uname pass :
  basicAuth req = (uname, pass) ->
  rp_users p !! uname = None ->
  getRequestScope p req = Err (errInvalidCredentials uname).
Proof. unfold getRequestScope. by intros -> ->. Qed.

Lemma getRequestScope_wrong_password p req uname pass iu :
  basicAuth req = (uname, pass) ->
  rp_users p !! uname = Some iu ->
  password (embedded iu) <> pass ->
  getRequestScope p req = Err (errInvalidCredentials uname).
Proof.
  unfold getRequestScope. intros -> -> Hne. by rewrite decide_True.
Qed.

Lemma getRequestScope_authenticated p req uname pass iu :
  basicAuth req = (uname, pass) ->
  rp_users p !! uname = Some iu ->
  password (embedded iu) = pass ->
  getRequestScope p req =
    match rp_clusters p !! toCluster iu with
    | None => Err (errUnknownCluster iu)
    | Some c =>
        match users c !! toUser iu with
        | None => Err (errUnknownUser iu)
        | Some eu =>
            Ok {| s_initialUser := iu; s_executionUser := eu;
                  s_cluster := c; s_host := getHost c |}
        end
    end.
Proof.
  unfold getRequestScope. intros -> -> Heq. rewrite decide_False; [done|].
  by intros Hne.
Qed.

(** C8. A request for a user name the proxy does not know and a request
    for a known user name with another password than the user's are both
    refused by [getRequestScope], with one and the same error for the same
    user name; [ServeHTTP] then answers both with that error and does
    nothing else. *)
Theorem getRequestScope_same_authentication_error
    p1 p2 req1 req2 uname pass1 pass2 iu r1 r2 :
  basicAuth req1 = (uname, pass1) ->
  basicAuth req2 = (uname, pass2) ->
  rp_users p1 !! uname = None ->
  rp_users p2 !! uname = Some iu ->
  password (embedded iu) <> pass2 ->
  getRequestScope p1 req1 = Err (errInvalidCredentials uname)
  /\ getRequestScope p2 req2 = Err (errInvalidCredentials uname)
  /\ ServeHTTP p1 req1 r1 = emit (EvRespondWithErr (errInvalidCredentials uname))
  /\ ServeHTTP p2 req2 r2 = emit (EvRespondWithErr (errInvalidCredentials uname)).
Proof.
  intros H1 H2 Hnone Hsome Hne.
  pose proof (getRequestScope_unknown _ _ _ _ H1 Hnone) as E1.
  pose proof (getRequestScope_wrong_password _ _ _ _ _ H2 Hsome Hne) as E2.
  unfold ServeHTTP. rewrite E1, E2. done.
Qed.

(** C9. For a request that passes authentication, a target cluster that
    the topology does not have, or a target execution user that the
    cluster does not have, makes [getRequestScope] fail with an error whose
    message starts with the mark [BUG: ], which no authentication error
    does: it differs from the authentication error of every user name. *)
Theorem getRequestScope_dangling_reference p req uname pass iu :
  basicAuth req = (uname, pass) ->
  rp_users p !! uname = Some iu ->
  password (embedded iu) = pass ->
  (rp_clusters p !! toCluster iu = None
   \/ exists c, rp_clusters p !! toCluster iu = Some c
        /\ users c !! toUser iu = None) ->
  exists e, getRequestScope p req = Err e
    /\ (exists rest, e = "BUG: " +:+ rest)
    /\ (forall n, e <> errInvalidCredentials n).
Proof.
  intros Hreq Hiu Hpw Hd.
  rewrite (getRequestScope_authenticated _ _ _ _ _ Hreq Hiu Hpw).
  destruct Hd as [-> | (c & -> & ->)].
  - exists (errUnknownCluster iu). split; [done|]. split.
    + by eexists.
    + intros n. unfold errUnknownCluster, errInvalidCredentials. simpl. discriminate.
  - exists (errUnknownUser iu). split; [done|]. split.
    + by eexists.
    + intros n. unfold errUnknownUser, errInvalidCredentials. simpl. discriminate.
Qed.

(** ** Results on [ServeHTTP] *)

Lemma forEach_emit (f : string -> event) (l : list string) :
  forEach (fun a => emit (f a)) l = mkIO (map f l) (Returned tt).
Proof.
  induction l as [|a rest IH]; [done|].
  simpl. rewrite IH. reflexivity.
Qed.

Lemma killQueries_run c condition elapsed :
  killQueries c condition elapsed
  = mkIO (map (fun h => EvDoQuery (killQuery condition elapsed)
                          (URL_String (addr h))) (hosts c))
         (Returned tt).
Proof.
  unfold killQueries. rewrite forEach_emit. by rewrite map_map.
Qed.

Lemma requestLabel_With (v : CounterVec) s a :
  variableLabels v = ["initial_user"; "execution_user"; "host"] ->
  counterInc v (requestLabel s a)
  = emit (EvCounterInc (vec_name v) (labelValuesOf s a)).
Proof. apply request_With_ok. Qed.

Lemma resolveRace_run s a r :
  resolveRace s (requestLabel s a) r = mkIO (raceTrace s a r) (Returned tt).
Proof.
  destruct r; unfold resolveRace, raceTrace;
    rewrite ?killQueries_run, !requestLabel_With by reflexivity;
    reflexivity.
Qed.

Lemma dispatch_run s h r :
  s_host s = Some h ->
  dispatch s r
  = mkIO (EvCounterInc "request_sum" (labelValuesOf s (addr h))
          :: EvForward (Scheme (addr h)) (Host (addr h)) (userAgent s)
          :: raceTrace s (addr h) r ++ [EvDec])
         (Returned tt).
Proof.
  intros Hh. unfold dispatch, hostAddr. rewrite Hh.
  erewrite bind_returned by reflexivity. simpl.
  rewrite requestLabel_With by reflexivity.
  rewrite resolveRace_run. reflexivity.
Qed.

Lemma dispatch_nil_host s r :
  s_host s = None ->
  dispatch s r
  = panic "runtime error: invalid memory address or nil pointer dereference".
Proof. intros Hh. unfold dispatch, hostAddr. by rewrite Hh. Qed.

Lemma ServeHTTP_dispatch p req r s h :
  getRequestScope p req = Ok s -> inc s = None -> s_host s = Some h ->
  ServeHTTP p req r
  = mkIO (EvInc :: EvCounterInc "request_sum" (labelValuesOf s (addr h))
          :: EvForward (Scheme (addr h)) (Host (addr h)) (userAgent s)
          :: raceTrace s (addr h) r ++ [EvDec])
         (Returned tt).
Proof.
  intros Hs Hinc Hh. unfold ServeHTTP. rewrite Hs, Hinc.
  rewrite (dispatch_run _ _ _ Hh). reflexivity.
Qed.






Lemma doQueries_app t1 t2 : doQueries (t1 ++ t2) = doQueries t1 ++ doQueries t2.
Proof.
  induction t1 as [|e t1 IH]; [done|].
  destruct e; simpl; by rewrite IH.
Qed.

Lemma doQueries_map {A} (f : A -> string * string) (l : list A) :
  doQueries (map (fun x => EvDoQuery (f x).1 (f x).2) l) = map f l.
Proof.
  induction l as [|x l IH]; [done|].
  simpl. rewrite IH. by destruct (f x).
Qed.

Lemma append_assoc (a b c : string) : (a +:+ b) +:+ c = a +:+ (b +:+ c).
Proof.
  induction a as [|ch a IH]; [done|].
  change (String ch ((a +:+ b) +:+ c) = String ch (a +:+ (b +:+ c))).
  by rewrite IH.
Qed.

Lemma killQuery_initial s elapsed :
  killQuery (initialUserCondition s) elapsed
  = "KILL QUERY WHERE http_user_agent = 'ClickHouseProxy: "
    +:+ name (embedded (s_initialUser s))
    +:+ "' AND elapsed >= " +:+ pretty (int_of_float64 elapsed).
Proof.
  unfold killQuery, initialUserCondition, userAgent.
  rewrite !append_assoc. reflexivity.
Qed.

Lemma killQuery_execution s elapsed :
  killQuery (executionUserCondition s) elapsed
  = "KILL QUERY WHERE initial_user = '"
    +:+ name (s_executionUser s)
    +:+ "' AND elapsed >= " +:+ pretty (int_of_float64 elapsed).
Proof.
  unfold killQuery, executionUserCondition.
  rewrite !append_assoc. reflexivity.
Qed.

Lemma doQueries_raceTrace s a r :
  doQueries (raceTrace s a r) =
    match r with
    | InitialUserTimeout =>
        map (fun h =>
               (killQuery (initialUserCondition s)
                  (Seconds (maxExecutionTime (embedded (s_initialUser s)))),
                URL_String (addr h))) (hosts (s_cluster s))
    | ExecutionUserTimeout =>
        map (fun h =>
               (killQuery (executionUserCondition s)
                  (Seconds (maxExecutionTime (s_executionUser s))),
                URL_String (addr h))) (hosts (s_cluster s))
    | Completed => []
    end.
Proof.
  destruct r; simpl; [| |done].
  - rewrite doQueries_app. simpl. rewrite app_nil_r.
    apply (doQueries_map (fun h => (_, URL_String (addr h)))).
  - rewrite doQueries_app. simpl. rewrite app_nil_r.
    apply (doQueries_map (fun h => (_, URL_String (addr h)))).
Qed.

Lemma doQueries_ServeHTTP p req r s :
  getRequestScope p req = Ok s -> inc s = None -> is_Some (s_host s) ->
  doQueries (trace (ServeHTTP p req r)) =
    match r with
    | InitialUserTimeout =>
        map (fun h =>
               (killQuery (initialUserCondition s)
                  (Seconds (maxExecutionTime (embedded (s_initialUser s)))),
                URL_String (addr h))) (hosts (s_cluster s))
    | ExecutionUserTimeout =>
        map (fun h =>
               (killQuery (executionUserCondition s)
                  (Seconds (maxExecutionTime (s_executionUser s))),
                URL_String (addr h))) (hosts (s_cluster s))
    | Completed => []
    end.
Proof.
  intros Hs Hinc [h Hh].
  rewrite (ServeHTTP_dispatch _ _ r _ _ Hs Hinc Hh).
  cbn [trace doQueries]. rewrite doQueries_app. simpl. rewrite app_nil_r.
  apply doQueries_raceTrace.
Qed.

(** C6. On an admitted request, the termination commands [ServeHTTP]
    sends are, in the order of the host list, one per host of the cluster
    at that host's address.  When the initial user's limit fires the
    statement is [KILL QUERY WHERE http_user_agent = 'ClickHouseProxy:
    <initial user>' AND elapsed >= n], with [n] the initial user's limit in
    seconds converted to an integer; when the execution user's limit fires
    it is [KILL QUERY WHERE initial_user = '<execution user>' AND elapsed
    >= n], with [n] from the execution user's limit; when the backend
    call completes there is none. *)
Theorem ServeHTTP_termination_commands p req r s :
  getRequestScope p req = Ok s -> inc s = None -> is_Some (s_host s) ->
  doQueries (trace (ServeHTTP p req r)) =
    match r with
    | InitialUserTimeout =>
        map (fun h =>
               ("KILL QUERY WHERE http_user_agent = 'ClickHouseProxy: "
                +:+ name (embedded (s_initialUser s))
                +:+ "' AND elapsed >= "
                +:+ pretty (int_of_float64
                              (Seconds (maxExecutionTime
                                          (embedded (s_initialUser s))))),
                URL_String (addr h))) (hosts (s_cluster s))
    | ExecutionUserTimeout =>
        map (fun h =>
               ("KILL QUERY WHERE initial_user = '"
                +:+ name (s_executionUser s)
                +:+ "' AND elapsed >= "
                +:+ pretty (int_of_float64
                              (Seconds (maxExecutionTime (s_executionUser s)))),
                URL_String (addr h))) (hosts (s_cluster s))
    | Completed => []
    end.
Proof.
  intros Hs Hinc Hh. rewrite (doQueries_ServeHTTP _ _ r _ Hs Hinc Hh).
  destruct r; [| |done].
  - by rewrite killQuery_initial.
  - by rewrite killQuery_execution.
Qed.

(** C7, as amended.  When the execution user's limit fires, every
    termination command filters on the name of the execution user: its
    statement is [KILL QUERY WHERE initial_user = '<execution user>' AND
    elapsed >= n], and one command goes to each host of the cluster. *)
Theorem execution_timeout_filters_by_execution_user p req s :
  getRequestScope p req = Ok s -> inc s = None -> is_Some (s_host s) ->
  Forall (fun qa : string * string =>
            qa.1 = "KILL QUERY WHERE initial_user = '"
                   +:+ name (s_executionUser s)
                   +:+ "' AND elapsed >= "
                   +:+ pretty (int_of_float64
                                 (Seconds (maxExecutionTime (s_executionUser s)))))
         (doQueries (trace (ServeHTTP p req ExecutionUserTimeout)))
  /\ length (doQueries (trace (ServeHTTP p req ExecutionUserTimeout)))
     = length (hosts (s_cluster s)).
Proof.
  intros Hs Hinc Hh.
  rewrite (doQueries_ServeHTTP _ _ ExecutionUserTimeout _ Hs Hinc Hh).
  split; [|by rewrite length_map].
  apply Forall_forall. intros qa Hin.
  apply list_elem_of_fmap in Hin as (h & -> & _). simpl.
  apply killQuery_execution.
Qed.

(** C10. A cluster without hosts gives [getHost] nothing to return; for an
    authenticated request mapped to such a cluster [getRequestScope]
    still returns a scope, whose host is [nil]; and [ServeHTTP], once
    [inc] has returned [nil] for that scope, panics on reading the
    address of the [nil] host, before it forwards anything and without
    calling [dec]. *)
Theorem zero_host_cluster_nil_host p req uname pass iu c eu r :
  basicAuth req = (uname, pass) ->
  rp_users p !! uname = Some iu ->
  password (embedded iu) = pass ->
  rp_clusters p !! toCluster iu = Some c ->
  users c !! toUser iu = Some eu ->
  hosts c = [] ->
  getHost c = None
  /\ getRequestScope p req
     = Ok {| s_initialUser := iu; s_executionUser := eu;
             s_cluster := c; s_host := None |}
  /\ (inc {| s_initialUser := iu; s_executionUser := eu;
             s_cluster := c; s_host := None |} = None ->
      ServeHTTP p req r
      = mkIO [EvInc]
          (Panicked
             "runtime error: invalid memory address or nil pointer dereference")).
Proof.
  intros Hreq Hiu Hpw Hc Hu Hhosts.
  assert (Hg : getHost c = None) by (unfold getHost; by rewrite Hhosts).
  assert (Hscope : getRequestScope p req
                   = Ok {| s_initialUser := iu; s_executionUser := eu;
                           s_cluster := c; s_host := None |}).
  { rewrite (getRequestScope_authenticated _ _ _ _ _ Hreq Hiu Hpw).
    by rewrite Hc, Hu, Hg. }
  split; [done|]. split; [done|].
  intros Hinc. unfold ServeHTTP. rewrite Hscope, Hinc.
  by rewrite dispatch_nil_host.
Qed.

(** ** Further results on [ApplyConfig] *)

Lemma buildHosts_Forall2 scheme nodes : forall hs,
  buildHosts scheme nodes = Ok hs ->
  Forall2 (fun node h =>
             url_Parse (scheme +:+ "://" +:+ node) = Ok (addr h)
             /\ runningQueries h = 0%N) nodes hs.
Proof.
  induction nodes as [|node rest IH]; intros hs H; simpl in H.
  - injection H as <-. constructor.
  - destruct (url_Parse (scheme +:+ "://" +:+ node)) as [a|e] eqn:Ha;
      simpl in H; [|done].
    destruct (buildHosts scheme rest) as [hs'|e] eqn:Hr; simpl in H; [|done].
    injection H as <-. constructor; [by rewrite Ha | by apply IH].
Qed.

Lemma buildHosts_ok_iff scheme nodes :
  (exists hs, buildHosts scheme nodes = Ok hs)
  <-> Forall (fun node => exists a, url_Parse (scheme +:+ "://" +:+ node) = Ok a)
             nodes.
Proof.
  induction nodes as [|node rest IH]; simpl.
  - split; [constructor | by eexists].
  - split.
    + intros [hs H].
      destruct (url_Parse (scheme +:+ "://" +:+ node)) as [a|e] eqn:Ha;
        simpl in H; [|done].
      destruct (buildHosts scheme rest) as [hs'|e]; simpl in H; [|done].
      constructor; [by eexists|]. apply IH. by eexists.
    + intros H. apply Forall_cons in H as [[a Ha] Hrest].
      apply IH in Hrest as [hs Hhs]. rewrite Ha, Hhs. simpl. by eexists.
Qed.

Lemma buildClusters_ok_iff cs : forall acc,
  (exists m, buildClusters acc cs = Ok m)
  <-> Forall (fun c =>
                Forall (fun node =>
                          exists a,
                            url_Parse (Cluster_Scheme c +:+ "://" +:+ node) = Ok a)
                       (Cluster_Nodes c)) cs.
Proof.
  induction cs as [|c rest IH]; intros acc; simpl.
  - split; [constructor | by eexists].
  - split.
    + intros [m H].
      destruct (buildHosts (Cluster_Scheme c) (Cluster_Nodes c)) as [hs|e] eqn:Hhs;
        simpl in H; [|done].
      constructor.
      * apply buildHosts_ok_iff. by eexists.
      * eapply IH. by eexists.
    + intros H. apply Forall_cons in H as [Hc Hrest].
      apply buildHosts_ok_iff in Hc as [hs Hhs]. rewrite Hhs. simpl.
      by apply IH.
Qed.

Lemma findOutUser_None out n :
  findOutUser out n = None <-> n ∉ (OutUser_Name <$> out).
Proof.
  induction out as [|o rest IH].
  - split; [intros _; apply not_elem_of_nil | done].
  - rewrite fmap_cons, not_elem_of_cons, <- IH. simpl.
    destruct (findOutUser rest n) as [o'|].
    + split; [done | by intros [_ ?]].
    + case_decide as Hn.
      * split; [done | by intros [? _]].
      * split; [done | by intros _].
Qed.

Lemma findOutUser_name out n o : findOutUser out n = Some o -> OutUser_Name o = n.
Proof.
  induction out as [|o' rest IH]; simpl; [done|].
  destruct (findOutUser rest n); [by intros [= ->]; apply IH|].
  case_decide; [by intros [= <-] | done].
Qed.

Lemma buildUsers_lookup_find out : forall acc n,
  buildUsers acc out !! n =
    match findOutUser out n with
    | Some o => Some (executionUserOf o)
    | None => acc !! n
    end.
Proof.
  induction out as [|o rest IH]; intros acc n; simpl; [done|].
  rewrite IH. destruct (findOutUser rest n); [done|].
  rewrite lookup_insert. by case_decide.
Qed.

Lemma findGlobalUser_Some gus n u :
  findGlobalUser gus n = Some u -> u ∈ gus /\ GlobalUser_Name u = n.
Proof.
  induction gus as [|u' rest IH]; simpl; [done|].
  destruct (findGlobalUser rest n) as [u''|].
  - intros [= ->]. destruct IH as [Hin Hn]; [done|]. split; [|done].
    apply elem_of_cons. by right.
  - case_decide; [|done]. intros [= <-]. split; [|done].
    apply elem_of_cons. by left.
Qed.

Lemma buildInitialUsers_lookup clusters gus : forall acc m n,
  buildInitialUsers clusters acc gus = Ok m ->
  m !! n =
    match findGlobalUser gus n with
    | Some u => Some (initialUserOf u)
    | None => acc !! n
    end.
Proof.
  induction gus as [|u rest IH]; intros acc m n H; simpl in *.
  - by injection H as ->.
  - destruct (clusters !! GlobalUser_ToCluster u) as [c|]; [|done].
    destruct (users c !! GlobalUser_ToUser u); [|done].
    rewrite (IH _ _ n H). destruct (findGlobalUser rest n); [done|].
    rewrite lookup_insert. by case_decide.
Qed.

Lemma buildInitialUsers_ok_iff clusters gus : forall acc,
  (exists m, buildInitialUsers clusters acc gus = Ok m)
  <-> Forall (resolves clusters) gus.
Proof.
  induction gus as [|u rest IH]; intros acc; simpl.
  - split; [constructor | by eexists].
  - split.
    + intros [m H].
      destruct (clusters !! GlobalUser_ToCluster u) as [c|] eqn:Hc; [|done].
      destruct (users c !! GlobalUser_ToUser u) as [eu|] eqn:Hu; [|done].
      constructor; [by exists c, eu|]. eapply IH. by eexists.
    + intros H. apply Forall_cons in H as [(c & eu & Hc & Hu) Hrest].
      rewrite Hc, Hu. by apply IH.
Qed.

(** In the clusters built from a configuration, an initial user resolves
    exactly when it does not dangle in the configuration. *)
Lemma resolves_iff_not_dangling cfg clusters u :
  buildClusters ∅ (Clusters cfg) = Ok clusters ->
  resolves clusters u <-> ~ dangling cfg u.
Proof.
  intros Hb. unfold resolves, dangling.
  pose proof (buildClusters_lookup _ _ _ (GlobalUser_ToCluster u) Hb) as Hl.
  destruct (findCluster (Clusters cfg) (GlobalUser_ToCluster u)) as [cc|].
  - destruct Hl as (hs & _ & Hl). split.
    + intros (c & eu & Hc & Hu) Hnot. rewrite Hl in Hc. injection Hc as <-.
      simpl in Hu. rewrite buildUsers_lookup_find in Hu.
      apply findOutUser_None in Hnot. by rewrite Hnot, lookup_empty in Hu.
    + intros Hnn.
      destruct (findOutUser (Cluster_OutUsers cc) (GlobalUser_ToUser u))
        as [o|] eqn:Ho.
      * eexists _, (executionUserOf o). split; [exact Hl|]. simpl.
        by rewrite buildUsers_lookup_find, Ho.
      * apply findOutUser_None in Ho. done.
  - rewrite lookup_empty in Hl. split.
    + intros (c & eu & Hc & _). congruence.
    + intros Hnn. by destruct Hnn.
Qed.

(** X1. [ApplyConfig] succeeds exactly when [Validate] accepts the
    configuration, the address of every node of every cluster parses, and
    no initial user dangles. *)
Theorem ApplyConfig_succeeds_iff cfg w :
  (exists w', ApplyConfig cfg w = (None, w'))
  <-> Validate cfg = None
      /\ nodesParse cfg
      /\ Forall (fun u => ~ dangling cfg u) (GlobalUsers cfg).
Proof.
  unfold ApplyConfig, buildTopology, nodesParse. split.
  - intros [w' H].
    destruct (Validate cfg); [done|]. split; [done|].
    destruct (buildClusters ∅ (Clusters cfg)) as [clusters|e] eqn:Hb;
      simpl in H; [|done].
    destruct (buildInitialUsers clusters ∅ (GlobalUsers cfg)) as [us|e] eqn:Hu;
      simpl in H; [|done].
    split; [apply (buildClusters_ok_iff _ ∅); by eexists|].
    assert (Hres : Forall (resolves clusters) (GlobalUsers cfg))
      by (eapply buildInitialUsers_ok_iff; by eexists).
    eapply Forall_impl; [exact Hres|].
    intros u Hr. by apply (resolves_iff_not_dangling cfg clusters).
  - intros (Hv & Hp & Hd). rewrite Hv.
    apply (buildClusters_ok_iff _ ∅) in Hp as [clusters Hb]. rewrite Hb. simpl.
    assert (Hres : Forall (resolves clusters) (GlobalUsers cfg)).
    { eapply Forall_impl; [exact Hd|].
      intros u Hr. by apply (resolves_iff_not_dangling cfg clusters). }
    apply (buildInitialUsers_ok_iff _ _ ∅) in Hres as [us Hus].
    rewrite Hus. simpl. by eexists.
Qed.

Lemma buildInitialUsers_first_error clusters pre : forall acc u post,
  Forall (resolves clusters) pre ->
  ~ resolves clusters u ->
  buildInitialUsers clusters acc (pre ++ u :: post) =
    Err (match clusters !! GlobalUser_ToCluster u with
         | None =>
             "error while mapping user " +:+ quote (GlobalUser_Name u)
             +:+ " to cluster " +:+ quote (GlobalUser_ToCluster u)
             +:+ ": no such cluster"
         | Some _ =>
             "error while mapping user " +:+ quote (GlobalUser_Name u)
             +:+ " to cluster's " +:+ quote (GlobalUser_ToCluster u)
             +:+ " user " +:+ quote (GlobalUser_ToUser u)
             +:+ ": no such user"
         end).
Proof.
  induction pre as [|v pre IH]; intros acc u post Hpre Hu; simpl.
  - destruct (clusters !! GlobalUser_ToCluster u) as [c|] eqn:Hc; [|done].
    destruct (users c !! GlobalUser_ToUser u) as [eu|] eqn:He; [|done].
    destruct Hu. by exists c, eu.
  - apply Forall_cons in Hpre as [(c & eu & Hc & He) Hpre].
    rewrite Hc, He. by apply IH.
Qed.

(** X2. When [Validate] accepts and every node address parses, the error
    of [ApplyConfig] is about the first initial user, in the order of the
    configuration, that dangles: [no such cluster] when its cluster is not
    configured, [no such user] otherwise; the world is unchanged. *)
Theorem ApplyConfig_first_dangling_error cfg w pre u post :
  Validate cfg = None ->
  nodesParse cfg ->
  GlobalUsers cfg = pre ++ u :: post ->
  Forall (fun v => ~ dangling cfg v) pre ->
  dangling cfg u ->
  ApplyConfig cfg w =
    (Some (match findCluster (Clusters cfg) (GlobalUser_ToCluster u) with
           | None =>
               "error while mapping user " +:+ quote (GlobalUser_Name u)
               +:+ " to cluster " +:+ quote (GlobalUser_ToCluster u)
               +:+ ": no such cluster"
           | Some _ =>
               "error while mapping user " +:+ quote (GlobalUser_Name u)
               +:+ " to cluster's " +:+ quote (GlobalUser_ToCluster u)
               +:+ " user " +:+ quote (GlobalUser_ToUser u)
               +:+ ": no such user"
           end), w).
Proof.
  intros Hv Hp Hgus Hpre Hu. unfold ApplyConfig, buildTopology. rewrite Hv.
  apply (buildClusters_ok_iff _ ∅) in Hp as [clusters Hb]. rewrite Hb. simpl.
  rewrite Hgus.
  rewrite (buildInitialUsers_first_error clusters pre ∅ u post).
  - simpl.
    pose proof (buildClusters_lookup _ _ _ (GlobalUser_ToCluster u) Hb) as Hl.
    destruct (findCluster (Clusters cfg) (GlobalUser_ToCluster u)) as [cc|].
    + destruct Hl as (hs & _ & ->). done.
    + rewrite Hl, lookup_empty. done.
  - eapply Forall_impl; [exact Hpre|].
    intros v Hr. by apply (resolves_iff_not_dangling cfg clusters).
  - intros Hr. by apply (resolves_iff_not_dangling cfg clusters) in Hr.
Qed.

(** X3. After a successful [ApplyConfig] the proxy has exactly the
    configured clusters: at a name that is configured, a cluster with one
    host per node, in the order of the nodes, each at the parsed address
    and with no running query, and with the configured execution users
    under their names; at any other name, nothing. *)
Theorem ApplyConfig_installed_clusters cfg w w' n :
  ApplyConfig cfg w = (None, w') ->
  match findCluster (Clusters cfg) n with
  | None => rp_clusters (rp w') !! n = None
  | Some c =>
      exists c',
        rp_clusters (rp w') !! n = Some c'
        /\ Forall2 (fun node h =>
                      url_Parse (Cluster_Scheme c +:+ "://" +:+ node) = Ok (addr h)
                      /\ runningQueries h = 0%N)
                   (Cluster_Nodes c) (hosts c')
        /\ (forall m, users c' !! m
                      = executionUserOf <$> findOutUser (Cluster_OutUsers c) m)
  end.
Proof.
  intros Happ. apply ApplyConfig_success in Happ as [Hb _].
  apply buildTopology_clusters in Hb.
  pose proof (buildClusters_lookup _ _ _ n Hb) as Hl.
  destruct (findCluster (Clusters cfg) n) as [c|].
  - destruct Hl as (hs & Hhs & Hl). eexists. split; [exact Hl|]. simpl. split.
    + by apply buildHosts_Forall2.
    + intros m. rewrite buildUsers_lookup_find.
      by destruct (findOutUser (Cluster_OutUsers c) m).
  - by rewrite Hl, lookup_empty.
Qed.

Lemma buildTopology_users cfg new :
  buildTopology cfg = Ok new ->
  buildInitialUsers (rp_clusters new) ∅ (GlobalUsers cfg) = Ok (rp_users new).
Proof.
  unfold buildTopology. intros H.
  destruct (buildClusters ∅ (Clusters cfg)) as [cl|]; simpl in H; [|done].
  destruct (buildInitialUsers cl ∅ (GlobalUsers cfg)) eqn:Hu; simpl in H; [|done].
  by injection H as <-.
Qed.

(** X4. After a successful [ApplyConfig] the proxy has exactly the
    configured initial users, each under its name with the limits and the
    mapping of the configuration (of the last entry, when a name occurs
    more than once). *)
Theorem ApplyConfig_installed_initial_users cfg w w' n :
  ApplyConfig cfg w = (None, w') ->
  rp_users (rp w') !! n = initialUserOf <$> findGlobalUser (GlobalUsers cfg) n.
Proof.
  intros Happ. apply ApplyConfig_success in Happ as [Hb _].
  apply buildTopology_users in Hb.
  rewrite (buildInitialUsers_lookup _ _ _ _ n Hb).
  by destruct (findGlobalUser (GlobalUsers cfg) n).
Qed.

Lemma ApplyConfig_installed_user_resolves cfg w w' n iu :
  ApplyConfig cfg w = (None, w') ->
  rp_users (rp w') !! n = Some iu ->
  exists u, iu = initialUserOf u /\ GlobalUser_Name u = n
            /\ resolves (rp_clusters (rp w')) u.
Proof.
  intros Happ Hiu. apply ApplyConfig_success in Happ as [Hb _].
  apply buildTopology_users in Hb.
  rewrite (buildInitialUsers_lookup _ _ _ _ n Hb), lookup_empty in Hiu.
  destruct (findGlobalUser (GlobalUsers cfg) n) as [u|] eqn:Hu; [|done].
  injection Hiu as <-. apply findGlobalUser_Some in Hu as [Hin Hn].
  exists u. split; [done|]. split; [done|].
  assert (Hres : Forall (resolves (rp_clusters (rp w'))) (GlobalUsers cfg))
    by (eapply buildInitialUsers_ok_iff; by eexists).
  by eapply Forall_forall in Hres.
Qed.

(** X5. After a successful [ApplyConfig] every initial user of the proxy
    has its cluster among the proxy's clusters and its execution user among
    that cluster's users, so [getRequestScope] on this proxy either returns
    a scope or fails with the error for invalid credentials, never with
    one of the [BUG] errors. *)
Theorem ApplyConfig_no_dangling_reference cfg w w' :
  ApplyConfig cfg w = (None, w') ->
  (forall n iu, rp_users (rp w') !! n = Some iu ->
     exists c eu, rp_clusters (rp w') !! toCluster iu = Some c
                  /\ users c !! toUser iu = Some eu)
  /\ (forall req e, getRequestScope (rp w') req = Err e ->
        e = errInvalidCredentials (basicAuth req).1).
Proof.
  intros Happ.
  assert (Hres : forall n iu, rp_users (rp w') !! n = Some iu ->
            exists c eu, rp_clusters (rp w') !! toCluster iu = Some c
                         /\ users c !! toUser iu = Some eu).
  { intros n iu Hiu.
    destruct (ApplyConfig_installed_user_resolves _ _ _ _ _ Happ Hiu)
      as (u & -> & _ & Hr). exact Hr. }
  split; [exact Hres|].
  intros req e. unfold getRequestScope.
  destruct (basicAuth req) as [uname pass]. simpl.
  destruct (rp_users (rp w') !! uname) as [iu|] eqn:Hiu; [|by intros [= <-]].
  case_decide; [by intros [= <-]|].
  destruct (Hres _ _ Hiu) as (c & eu & -> & ->). done.
Qed.

(** X6. [ApplyConfig] leaves the password of the initial users it builds
    at the zero value.  On the proxy of a successful [ApplyConfig], a
    request gets a scope only with the empty password, whatever password
    the configuration gives the user, and the scope's initial user has the
    requested name. *)
Theorem ApplyConfig_initial_user_password_empty cfg w w' req s :
  ApplyConfig cfg w = (None, w') ->
  getRequestScope (rp w') req = Ok s ->
  (basicAuth req).2 = EmptyString
  /\ password (embedded (s_initialUser s)) = EmptyString
  /\ name (embedded (s_initialUser s)) = (basicAuth req).1.
Proof.
  intros Happ. unfold getRequestScope.
  destruct (basicAuth req) as [uname pass]. simpl.
  destruct (rp_users (rp w') !! uname) as [iu|] eqn:Hiu; [|done].
  destruct (ApplyConfig_installed_user_resolves _ _ _ _ _ Happ Hiu)
    as (u & -> & Hn & _).
  case_decide as Hpw; [done|].
  destruct (rp_clusters (rp w') !! toCluster (initialUserOf u)) as [c|]; [|done].
  destruct (users c !! toUser (initialUserOf u)) as [eu|]; [|done].
  intros [= <-]. simpl in *. split; [|done].
  destruct (decide (EmptyString = pass)) as [<-|Hne]; [done|]. by destruct Hpw.
Qed.

Lemma getHost_all_idle (c : cluster) :
  Forall (fun h => runningQueries h = 0%N) (hosts c) ->
  getHost c = head (hosts c).
Proof.
  unfold getHost. destruct (hosts c) as [|h rest]; [done|].
  intros H. apply Forall_cons in H as [Hz _]. simpl. by rewrite Hz.
Qed.

(** X7. On the proxy of a successful [ApplyConfig] no host runs a query,
    so [getHost] returns the first host of a cluster, the one of the first
    configured node. *)
Theorem ApplyConfig_getHost_first_node cfg w w' n c :
  ApplyConfig cfg w = (None, w') ->
  rp_clusters (rp w') !! n = Some c ->
  Forall (fun h => runningQueries h = 0%N) (hosts c)
  /\ getHost c = head (hosts c).
Proof.
  intros Happ Hc. apply ApplyConfig_success in Happ as [Hb _].
  apply buildTopology_clusters in Hb.
  pose proof (buildClusters_lookup _ _ _ n Hb) as Hl.
  destruct (findCluster (Clusters cfg) n) as [cc|];
    [|by rewrite Hc, lookup_empty in Hl].
  destruct Hl as (hs & Hhs & Hl). rewrite Hc in Hl. injection Hl as ->.
  apply buildHosts_Forall2 in Hhs. simpl.
  assert (Hz : Forall (fun h => runningQueries h = 0%N) hs).
  { clear -Hhs. induction Hhs as [|node h nodes hs [_ Hz] _ IH];
      constructor; done. }
  split; [exact Hz|]. by apply getHost_all_idle.
Qed.

(** ** Further results on [getRequestScope] and [getHost] *)

(** X8. A scope returned by [getRequestScope] is made of the proxy's own
    entries: its initial user is registered under the supplied user name
    and has the supplied password, its cluster is the one the initial user
    maps to, its execution user is the one the initial user maps to in
    that cluster, and its host is the one [getHost] picks there. *)
Theorem getRequestScope_scope_sound p req s :
  getRequestScope p req = Ok s ->
  rp_users p !! (basicAuth req).1 = Some (s_initialUser s)
  /\ password (embedded (s_initialUser s)) = (basicAuth req).2
  /\ rp_clusters p !! toCluster (s_initialUser s) = Some (s_cluster s)
  /\ users (s_cluster s) !! toUser (s_initialUser s) = Some (s_executionUser s)
  /\ s_host s = getHost (s_cluster s).
Proof.
  unfold getRequestScope. destruct (basicAuth req) as [uname pass]. simpl.
  destruct (rp_users p !! uname) as [iu|]; [|done].
  case_decide as Hpw; [done|].
  destruct (rp_clusters p !! toCluster iu) as [c|] eqn:Hc; [|done].
  destruct (users c !! toUser iu) as [eu|] eqn:Hu; [|done].
  intros [= <-]. simpl. repeat split; try done.
Qed.

(** X9. When the cluster of a returned scope has a host, the scope has a
    host, and it is the first host of the cluster with the least number
    of running queries. *)
Theorem getRequestScope_least_loaded_host p req s :
  getRequestScope p req = Ok s ->
  hosts (s_cluster s) <> [] ->
  exists i h, s_host s = Some h /\ first_least (hosts (s_cluster s)) i h.
Proof.
  unfold getRequestScope. destruct (basicAuth req) as [uname pass].
  destruct (rp_users p !! uname) as [iu|]; [|done].
  case_decide; [done|].
  destruct (rp_clusters p !! toCluster iu) as [c|]; [|done].
  destruct (users c !! toUser iu) as [eu|]; [|done].
  intros [= <-] Hne. simpl in *.
  destruct (getHost_loop_first_least (hosts c) [] None) as (i & h & Hg & Hfl);
    [by intros h ?%elem_of_nil | done | done |].
  by exists i, h.
Qed.

(** X10. [getHost] returns [nil] exactly for a cluster without hosts. *)
Theorem getHost_None_iff (c : cluster) :
  getHost c = None <-> hosts c = [].
Proof.
  split.
  - intros Hnone. destruct (hosts c) as [|h rest] eqn:Hh; [done|].
    destruct (getHost_loop_first_least (hosts c) [] None) as (i & h' & Hg & _);
      [by intros ? ?%elem_of_nil | done | by rewrite Hh |].
    unfold getHost in Hnone. congruence.
  - intros Hh. unfold getHost. by rewrite Hh.
Qed.

(** ** Further results on [RoundTrip] and [ServeHTTP] *)

(** X11. When the embedded transport returns no response, [RoundTrip]
    returns what the transport returned; it adds the pair of the request's
    host and the error message to the error vector when there is an error,
    and touches no vector otherwise. *)
Theorem RoundTrip_without_response urlHost err :
  RoundTrip urlHost None err
  = mkIO match err with
         | Some e => [EvCounterInc "request_errors" [urlHost; e]]
         | None => []
         end
         (Returned (None, err)).
Proof.
  unfold RoundTrip. destruct err as [e|]; [|reflexivity].
  rewrite errors_With_ok. reflexivity.
Qed.

Lemma counterIncs_app vec t1 t2 :
  counterIncs vec (t1 ++ t2) = counterIncs vec t1 ++ counterIncs vec t2.
Proof.
  induction t1 as [|e t1 IH]; [done|].
  destruct e; simpl; try done. case_decide; by rewrite IH.
Qed.

Lemma forwards_app t1 t2 : forwards (t1 ++ t2) = forwards t1 ++ forwards t2.
Proof. induction t1 as [|e t1 IH]; [done|]. destruct e; simpl; by rewrite IH. Qed.

Lemma writes_app t1 t2 : writes (t1 ++ t2) = writes t1 ++ writes t2.
Proof. induction t1 as [|e t1 IH]; [done|]. destruct e; simpl; by rewrite IH. Qed.

Lemma cancels_app t1 t2 : cancels (t1 ++ t2) = (cancels t1 + cancels t2)%nat.
Proof. induction t1 as [|e t1 IH]; [done|]. destruct e; simpl; by rewrite IH. Qed.

(** The termination commands are no counter, forward, write or cancel. *)
Lemma doQuery_events_silent {A} vec (q : string) (f : A -> string) (l : list A) :
  counterIncs vec (map (fun x => EvDoQuery q (f x)) l) = []
  /\ forwards (map (fun x => EvDoQuery q (f x)) l) = []
  /\ writes (map (fun x => EvDoQuery q (f x)) l) = []
  /\ cancels (map (fun x => EvDoQuery q (f x)) l) = 0%nat.
Proof. induction l as [|x l IH]; [done|]. exact IH. Qed.

Lemma counterIncs_raceTrace vec s a r :
  counterIncs vec (raceTrace s a r) =
    match r with
    | Completed =>
        if decide ("request_success" = vec) then [labelValuesOf s a] else []
    | _ =>
        if decide ("request_timeouts" = vec) then [labelValuesOf s a] else []
    end.
Proof.
  destruct r; simpl; [| |done].
  - rewrite counterIncs_app.
    destruct (doQuery_events_silent vec
                (killQuery (initialUserCondition s)
                   (Seconds (maxExecutionTime (embedded (s_initialUser s)))))
                (fun h => URL_String (addr h)) (hosts (s_cluster s)))
      as (-> & _).
    by case_decide.
  - rewrite counterIncs_app.
    destruct (doQuery_events_silent vec
                (killQuery (executionUserCondition s)
                   (Seconds (maxExecutionTime (s_executionUser s))))
                (fun h => URL_String (addr h)) (hosts (s_cluster s)))
      as (-> & _).
    by case_decide.
Qed.

(** X12. A request that is let in, on a scope with a host, adds its label
    tuple (initial user, execution user, host) once to the vector of sent
    requests; once to the vector of timeouts when either limit fires and
    not at all when the backend call completes; once to the vector of
    successes when the backend call completes and not at all when a limit
    fires. *)
Theorem ServeHTTP_counters p req r s h :
  getRequestScope p req = Ok s -> inc s = None -> s_host s = Some h ->
  counterIncs "request_sum" (trace (ServeHTTP p req r))
    = [[name (embedded (s_initialUser s)); name (s_executionUser s);
        Host (addr h)]]
  /\ counterIncs "request_timeouts" (trace (ServeHTTP p req r))
     = match r with
       | Completed => []
       | _ => [[name (embedded (s_initialUser s)); name (s_executionUser s);
                Host (addr h)]]
       end
  /\ counterIncs "request_success" (trace (ServeHTTP p req r))
     = match r with
       | Completed =>
           [[name (embedded (s_initialUser s)); name (s_executionUser s);
             Host (addr h)]]
       | _ => []
       end.
Proof.
  intros Hs Hinc Hh. rewrite (ServeHTTP_dispatch _ _ r _ _ Hs Hinc Hh).
  cbn [trace].
  change (EvInc :: ?x :: ?y :: ?l ++ ?t) with ([EvInc; x; y] ++ l ++ t).
  rewrite !counterIncs_app, !counterIncs_raceTrace.
  destruct r; repeat split; reflexivity.
Qed.

Lemma raceTrace_client s a r :
  forwards (raceTrace s a r) = []
  /\ cancels (raceTrace s a r) = match r with Completed => 0%nat | _ => 1%nat end
  /\ writes (raceTrace s a r) =
       match r with
       | InitialUserTimeout =>
           ["timeout for initial user "
            +:+ quote (name (embedded (s_initialUser s)))
            +:+ " exceeded: "
            +:+ Duration_String (maxExecutionTime (embedded (s_initialUser s)))]
       | ExecutionUserTimeout =>
           ["timeout for execution user "
            +:+ quote (name (s_executionUser s))
            +:+ " exceeded: "
            +:+ Duration_String (maxExecutionTime (s_executionUser s))]
       | Completed => []
       end.
Proof.
  destruct r; simpl; [| |done].
  - rewrite forwards_app, cancels_app, writes_app.
    destruct (doQuery_events_silent EmptyString
                (killQuery (initialUserCondition s)
                   (Seconds (maxExecutionTime (embedded (s_initialUser s)))))
                (fun h => URL_String (addr h)) (hosts (s_cluster s)))
      as (_ & -> & -> & ->).
    done.
  - rewrite forwards_app, cancels_app, writes_app.
    destruct (doQuery_events_silent EmptyString
                (killQuery (executionUserCondition s)
                   (Seconds (maxExecutionTime (s_executionUser s))))
                (fun h => URL_String (addr h)) (hosts (s_cluster s)))
      as (_ & -> & -> & ->).
    done.
Qed.

(** X13. A request that is let in, on a scope with a host, is forwarded
    once, to the scheme and host of the selected host, with the
    User-Agent [ClickHouseProxy: <initial user>].  When a limit fires the
    backend call is cancelled once and the client is written one message,
    which names the initial user and its limit, or the execution user and
    its limit, according to the limit that fired; when the backend call
    completes there is no cancellation and [ServeHTTP] writes nothing of
    its own. *)
Theorem ServeHTTP_forward_and_answer p req r s h :
  getRequestScope p req = Ok s -> inc s = None -> s_host s = Some h ->
  forwards (trace (ServeHTTP p req r))
    = [(Scheme (addr h), Host (addr h),
        "ClickHouseProxy: " +:+ name (embedded (s_initialUser s)))]
  /\ cancels (trace (ServeHTTP p req r))
     = match r with Completed => 0%nat | _ => 1%nat end
  /\ writes (trace (ServeHTTP p req r)) =
       match r with
       | InitialUserTimeout =>
           ["timeout for initial user "
            +:+ quote (name (embedded (s_initialUser s)))
            +:+ " exceeded: "
            +:+ Duration_String (maxExecutionTime (embedded (s_initialUser s)))]
       | ExecutionUserTimeout =>
           ["timeout for execution user "
            +:+ quote (name (s_executionUser s))
            +:+ " exceeded: "
            +:+ Duration_String (maxExecutionTime (s_executionUser s))]
       | Completed => []
       end.
Proof.
  intros Hs Hinc Hh. rewrite (ServeHTTP_dispatch _ _ r _ _ Hs Hinc Hh).
  cbn [trace].
  change (EvInc :: ?x :: ?y :: ?l ++ ?t) with ([EvInc; x; y] ++ l ++ t).
  rewrite !forwards_app, !cancels_app, !writes_app.
  destruct (raceTrace_client s (addr h) r) as (-> & -> & ->).
  simpl. rewrite app_nil_r, Nat.add_0_r. done.
Qed.

(** ** Results on [NewReverseProxy] and [ReloadConfig] *)

(** X14. [NewReverseProxy] returns the proxy also when the configuration
    is refused.  That proxy has no user and no cluster, so every request
    to it fails with the error for invalid credentials, and the logger's
    switch is as before.  When the configuration is accepted the proxy is
    the topology built from it and the switch is the configured one. *)
Theorem NewReverseProxy_result cfg debug0 w :
  (forall e, NewReverseProxy cfg debug0 = (w, Some e) ->
     w = {| rp := {| rp_users := ∅; rp_clusters := ∅ |}; debug := debug0 |}
     /\ forall req, getRequestScope (rp w) req
                    = Err (errInvalidCredentials (basicAuth req).1))
  /\ (NewReverseProxy cfg debug0 = (w, None) ->
        buildTopology cfg = Ok (rp w) /\ debug w = LogDebug cfg).
Proof.
  unfold NewReverseProxy.
  destruct (ApplyConfig cfg
              {| rp := {| rp_users := ∅; rp_clusters := ∅ |}; debug := debug0 |})
    as [err w1] eqn:Happ.
  split.
  - intros e [= -> ->]. apply ApplyConfig_error_keeps_world in Happ as ->.
    split; [done|]. intros req. unfold getRequestScope.
    destruct (basicAuth req) as [uname pass]. simpl.
    by rewrite lookup_empty.
  - intros [= -> ->]. by apply ApplyConfig_success in Happ.
Qed.

(** X15. [ReloadConfig] changes nothing unless it succeeds: whatever the
    error, the proxy and the logger's switch are as before the call.  A
    file that cannot be loaded gives the error [can't load config <file>:
    <cause>], and the configuration is not applied. *)
Theorem ReloadConfig_atomic file w :
  (forall e w', ReloadConfig file w = (Some e, w') -> w' = w)
  /\ (forall err, LoadFile file = Err err ->
        ReloadConfig file w
        = (Some ("can't load config " +:+ quote file +:+ ": " +:+ err), w))
  /\ (forall w', ReloadConfig file w = (None, w') ->
        exists cfg, LoadFile file = Ok cfg /\ buildTopology cfg = Ok (rp w')).
Proof.
  unfold ReloadConfig. split; [|split].
  - intros e w'. destruct (LoadFile file) as [cfg|err].
    + apply ApplyConfig_error_keeps_world.
    + by intros [= _ <-].
  - by intros err ->.
  - intros w'. destruct (LoadFile file) as [cfg|err]; [|done].
    intros H. exists cfg. split; [done|].
    by apply ApplyConfig_success in H as [H _].
Qed.

(** X16. On the proxy of a successful [ApplyConfig], a request that gets
    a scope, for a user whose cluster is configured with at least one
    node, gets the host of the first node of that cluster: the host at
    the parsed address of that node, with no running query; and the
    scope's initial user has the user name of the request. *)
Theorem ApplyConfig_then_getRequestScope_first_node cfg w w' req s c node rest :
  ApplyConfig cfg w = (None, w') ->
  getRequestScope (rp w') req = Ok s ->
  findCluster (Clusters cfg) (toCluster (s_initialUser s)) = Some c ->
  Cluster_Nodes c = node :: rest ->
  exists a,
    url_Parse (Cluster_Scheme c +:+ "://" +:+ node) = Ok a
    /\ s_host s = Some {| addr := a; runningQueries := 0 |}
    /\ name (embedded (s_initialUser s)) = (basicAuth req).1.
Proof.
  intros Happ Hs Hc Hnodes.
  assert (Hinv : rp_users (rp w') !! (basicAuth req).1 = Some (s_initialUser s)
                 /\ rp_clusters (rp w') !! toCluster (s_initialUser s)
                    = Some (s_cluster s)
                 /\ s_host s = getHost (s_cluster s)).
  { revert Hs. unfold getRequestScope.
    destruct (basicAuth req) as [uname pass]. simpl.
    destruct (rp_users (rp w') !! uname) as [iu|]; [|done].
    case_decide; [done|].
    destruct (rp_clusters (rp w') !! toCluster iu) as [c0|] eqn:Hc0; [|done].
    destruct (users c0 !! toUser iu) as [eu|]; [|done].
    by intros [= <-]. }
  destruct Hinv as (Hiu & Hcl & Hhost).
  destruct (ApplyConfig_installed_user_resolves _ _ _ _ _ Happ Hiu)
    as (u & Hu & Hn & _).
  pose proof Happ as Hb. apply ApplyConfig_success in Hb as [Hb _].
  apply buildTopology_clusters in Hb.
  pose proof (buildClusters_lookup _ _ _ (toCluster (s_initialUser s)) Hb) as Hl.
  rewrite Hc in Hl. destruct Hl as (hs & Hhs & Hl).
  rewrite Hcl in Hl. injection Hl as Hl.
  apply buildHosts_Forall2 in Hhs. rewrite Hnodes in Hhs.
  apply Forall2_cons_inv_l in Hhs as (h & hs' & [Ha Hz] & _ & ->).
  exists (addr h). split; [exact Ha|]. split.
  - rewrite Hhost, Hl. unfold getHost. simpl. rewrite Hz. simpl.
    destruct h as [a n]. simpl in Hz. by rewrite Hz.
  - by rewrite Hu, <- Hn.
Qed.

End Proxy.

(** ** The results at the sample data *)

Local Abbreviation sApplyConfig :=
  (ApplyConfig Sample.quote Sample.url_Parse Sample.Validate).
Local Abbreviation sGetRequestScope :=
  (getRequestScope Sample.quote (string * string) Sample.basicAuth).
Local Abbreviation sServeHTTP inc :=
  (ServeHTTP Sample.quote Sample.Duration_String Z Sample.Seconds
     Sample.int_of_seconds (string * string) Sample.basicAuth inc).

Example getHost_031 :
  getHost (Sample.cl Sample.hosts_031) = Some (Sample.host_at "n1:8123" 0).
Proof. reflexivity. Qed.

Example getHost_231 :
  getHost (Sample.cl Sample.hosts_231) = Some (Sample.host_at "n3:8123" 1).
Proof. reflexivity. Qed.

Lemma getHost_first_least_witness :
  Sample.hosts_231 <> []
  /\ exists i h,
       getHost (Sample.cl Sample.hosts_231) = Some h
       /\ first_least Sample.hosts_231 i h
       /\ (forall k hk, Sample.hosts_231 !! k = Some hk ->
             runningQueries hk = 0%N -> runningQueries h = 0%N /\ (i <= k)%nat).
Proof.
  split; [discriminate|].
  apply (getHost_first_least (Sample.cl Sample.hosts_231)). discriminate.
Defined.

(** The configuration gives the execution user web of cluster c1 the
    limits 4 and 30s; the execution user installed has neither. *)
Lemma ApplyConfig_execution_user_limits_zero_witness :
  OutUser_MaxConcurrentQueries Sample.web = 4%Z
  /\ OutUser_MaxExecutionTime Sample.web = 30000000000%Z
  /\ exists w' c eu,
       sApplyConfig (Sample.cfg "c1" "web") Sample.w0 = (None, w')
       /\ rp_clusters (rp w') !! "c1" = Some c
       /\ users c !! "web" = Some eu
       /\ name eu = "web" /\ password eu = "secret"
       /\ maxConcurrentQueries eu = 0%Z /\ maxExecutionTime eu = 0%Z.
Proof.
  split; [reflexivity|]. split; [reflexivity|].
  eexists _, _, _.
  split; [vm_compute; reflexivity|].
  split; [vm_compute; reflexivity|].
  split; [vm_compute; reflexivity|].
  split; [reflexivity|]. split; [reflexivity|].
  eapply (ApplyConfig_execution_user_limits_zero
            Sample.quote Sample.url_Parse Sample.Validate
            (Sample.cfg "c1" "web") Sample.w0 _ "c1" _ "web");
    vm_compute; reflexivity.
Defined.

Example RoundTrip_200_panics :
  outcome_of (RoundTrip Sample.quote "n1:8123" (Some {| Status := "200 OK" |}) None)
  = Panicked ("label name " +:+ Sample.quote "target" +:+ " missing in label map").
Proof. reflexivity. Qed.

Lemma ApplyConfig_atomic_witness :
  (exists e, sApplyConfig (Sample.cfg "c9" "web") Sample.w1 = (Some e, Sample.w1))
  /\ (exists e, sApplyConfig (Sample.cfg "c1" "nobody") Sample.w1
                = (Some e, Sample.w1)).
Proof.
  split.
  - apply (proj1 (ApplyConfig_atomic Sample.quote Sample.url_Parse
                    Sample.Validate (Sample.cfg "c9" "web") Sample.w1)
             (Sample.alice "c9" "web")).
    + apply list_elem_of_here.
    + vm_compute. exact I.
  - apply (proj1 (ApplyConfig_atomic Sample.quote Sample.url_Parse
                    Sample.Validate (Sample.cfg "c1" "nobody") Sample.w1)
             (Sample.alice "c1" "nobody")).
    + apply list_elem_of_here.
    + unfold dangling. simpl. intros Hin.
      apply list_elem_of_singleton in Hin. discriminate.
Defined.


(** Alice's limit of 10.5s fires: both hosts are told to kill what carries
    her marker and has run for 10 seconds. *)
Lemma ServeHTTP_termination_commands_witness :
  doQueries (trace (sServeHTTP Sample.accept_all
                      (Sample.proxy Sample.two_hosts "c1" "web") ("alice", "pw")
                      InitialUserTimeout))
  = [ ("KILL QUERY WHERE http_user_agent = 'ClickHouseProxy: alice' AND elapsed >= 10",
       "http://n1:8123");
      ("KILL QUERY WHERE http_user_agent = 'ClickHouseProxy: alice' AND elapsed >= 10",
       "http://n2:8123") ].
Proof.
  rewrite (ServeHTTP_termination_commands Sample.quote
             Sample.Duration_String Z Sample.Seconds Sample.int_of_seconds
             (string * string) Sample.basicAuth Sample.accept_all
             (Sample.proxy Sample.two_hosts "c1" "web") ("alice", "pw")
             InitialUserTimeout Sample.scope_alice).
  - reflexivity.
  - vm_compute. reflexivity.
  - reflexivity.
  - eexists. reflexivity.
Defined.

(** C7 as stated fails.  Alice is mapped to the execution user web; when
    web's limit fires, the statements sent do not name alice. *)
Lemma execution_timeout_not_by_initial_user_name :
  sGetRequestScope (Sample.proxy Sample.two_hosts "c1" "web") ("alice", "pw")
    = Ok Sample.scope_alice
  /\ name (embedded (s_initialUser Sample.scope_alice)) = "alice"
  /\ ~ Forall (fun qa : string * string =>
                 qa.1 = "KILL QUERY WHERE initial_user = '"
                        +:+ name (embedded (s_initialUser Sample.scope_alice))
                        +:+ "' AND elapsed >= "
                        +:+ pretty (Sample.int_of_seconds
                                      (Sample.Seconds
                                         (maxExecutionTime
                                            (s_executionUser Sample.scope_alice)))))
        (doQueries (trace (sServeHTTP Sample.accept_all
                             (Sample.proxy Sample.two_hosts "c1" "web")
                             ("alice", "pw") ExecutionUserTimeout))).
Proof.
  split; [vm_compute; reflexivity|]. split; [reflexivity|].
  intros H. apply Forall_inv in H. vm_compute in H. discriminate H.
Qed.

Lemma execution_timeout_filters_by_execution_user_witness :
  Forall (fun qa : string * string =>
            qa.1 = "KILL QUERY WHERE initial_user = 'web' AND elapsed >= 30")
         (doQueries (trace (sServeHTTP Sample.accept_all
                              (Sample.proxy Sample.two_hosts "c1" "web")
                              ("alice", "pw") ExecutionUserTimeout)))
  /\ length (doQueries (trace (sServeHTTP Sample.accept_all
                                 (Sample.proxy Sample.two_hosts "c1" "web")
                                 ("alice", "pw") ExecutionUserTimeout)))
     = 2%nat.
Proof.
  apply (execution_timeout_filters_by_execution_user Sample.quote
           Sample.Duration_String Z Sample.Seconds Sample.int_of_seconds
           (string * string) Sample.basicAuth Sample.accept_all
           (Sample.proxy Sample.two_hosts "c1" "web") ("alice", "pw")
           Sample.scope_alice).
  - vm_compute. reflexivity.
  - reflexivity.
  - eexists. reflexivity.
Defined.

(** Alice unknown to the first proxy, known to the second with the
    password pw: both requests get the same answer. *)
Lemma getRequestScope_same_authentication_error_witness :
  sGetRequestScope {| rp_users := ∅; rp_clusters := ∅ |} ("alice", "pw")
    = Err (errInvalidCredentials Sample.quote "alice")
  /\ sGetRequestScope (Sample.proxy Sample.two_hosts "c1" "web") ("alice", "guess")
     = Err (errInvalidCredentials Sample.quote "alice")
  /\ sServeHTTP Sample.accept_all {| rp_users := ∅; rp_clusters := ∅ |}
       ("alice", "pw") Completed
     = emit (EvRespondWithErr (errInvalidCredentials Sample.quote "alice"))
  /\ sServeHTTP Sample.accept_all (Sample.proxy Sample.two_hosts "c1" "web")
       ("alice", "guess") Completed
     = emit (EvRespondWithErr (errInvalidCredentials Sample.quote "alice")).
Proof.
  apply (getRequestScope_same_authentication_error Sample.quote
           Sample.Duration_String Z Sample.Seconds Sample.int_of_seconds
           (string * string) Sample.basicAuth Sample.accept_all
           {| rp_users := ∅; rp_clusters := ∅ |}
           (Sample.proxy Sample.two_hosts "c1" "web")
           ("alice", "pw") ("alice", "guess") "alice" "pw" "guess"
           (Sample.iu_alice "c1" "web") Completed Completed).
  - reflexivity.
  - reflexivity.
  - reflexivity.
  - vm_compute. reflexivity.
  - simpl. discriminate.
Defined.

(** Alice mapped to a cluster the proxy does not have, and to an execution
    user her cluster does not have. *)
Lemma getRequestScope_dangling_reference_witness :
  (exists e,
     sGetRequestScope (Sample.proxy Sample.two_hosts "c9" "web") ("alice", "pw")
       = Err e
     /\ (exists rest, e = "BUG: " +:+ rest)
     /\ (forall n, e <> errInvalidCredentials Sample.quote n))
  /\ (exists e,
        sGetRequestScope (Sample.proxy Sample.two_hosts "c1" "nobody")
          ("alice", "pw") = Err e
        /\ (exists rest, e = "BUG: " +:+ rest)
        /\ (forall n, e <> errInvalidCredentials Sample.quote n)).
Proof.
  split.
  - apply (getRequestScope_dangling_reference Sample.quote (string * string)
             Sample.basicAuth (Sample.proxy Sample.two_hosts "c9" "web")
             ("alice", "pw") "alice" "pw" (Sample.iu_alice "c9" "web")).
    + reflexivity.
    + vm_compute. reflexivity.
    + reflexivity.
    + left. vm_compute. reflexivity.
  - apply (getRequestScope_dangling_reference Sample.quote (string * string)
             Sample.basicAuth (Sample.proxy Sample.two_hosts "c1" "nobody")
             ("alice", "pw") "alice" "pw" (Sample.iu_alice "c1" "nobody")).
    + reflexivity.
    + vm_compute. reflexivity.
    + reflexivity.
    + right. exists (Sample.cl Sample.two_hosts).
      split; vm_compute; reflexivity.
Defined.

(** Alice's cluster has no host. *)
Lemma zero_host_cluster_nil_host_witness :
  getHost (Sample.cl []) = None
  /\ sGetRequestScope (Sample.proxy [] "c1" "web") ("alice", "pw")
     = Ok {| s_initialUser := Sample.iu_alice "c1" "web";
             s_executionUser := Sample.eu_web;
             s_cluster := Sample.cl [];
             s_host := None |}
  /\ sServeHTTP Sample.accept_all (Sample.proxy [] "c1" "web") ("alice", "pw")
       Completed
     = mkIO [EvInc]
         (Panicked
            "runtime error: invalid memory address or nil pointer dereference").
Proof.
  destruct (zero_host_cluster_nil_host Sample.quote
              Sample.Duration_String Z Sample.Seconds Sample.int_of_seconds
              (string * string) Sample.basicAuth Sample.accept_all
              (Sample.proxy [] "c1" "web") ("alice", "pw") "alice" "pw"
              (Sample.iu_alice "c1" "web") (Sample.cl []) Sample.eu_web
              Completed) as (Hg & Hs & Hp).
  - reflexivity.
  - vm_compute. reflexivity.
  - reflexivity.
  - vm_compute. reflexivity.
  - vm_compute. reflexivity.
  - reflexivity.
  - split; [exact Hg|]. split; [exact Hs|]. apply Hp. reflexivity.
Defined.

(** ** The further results at the sample data *)

Local Abbreviation sNewReverseProxy :=
  (NewReverseProxy Sample.quote Sample.url_Parse Sample.Validate).
Local Abbreviation sReloadConfig :=
  (ReloadConfig Sample.quote Sample.url_Parse Sample.Validate Sample.LoadFile).

Lemma sample_applied :
  sApplyConfig (Sample.cfg "c1" "web") Sample.w0 = (None, Sample.installed).
Proof. vm_compute. reflexivity. Qed.

Lemma sample_scope_installed :
  sGetRequestScope (rp Sample.installed) ("alice", EmptyString)
  = Ok {| s_initialUser := initialUserOf (Sample.alice "c1" "web");
          s_executionUser := executionUserOf Sample.web;
          s_cluster :=
            {| hosts := [Sample.host_at "n1:8123" 0; Sample.host_at "n2:8123" 0];
               users := {[ "web" := executionUserOf Sample.web ]} |};
          s_host := Some (Sample.host_at "n1:8123" 0) |}.
Proof. vm_compute. reflexivity. Qed.

Lemma sample_scope_alice :
  sGetRequestScope (Sample.proxy Sample.two_hosts "c1" "web") ("alice", "pw")
  = Ok Sample.scope_alice.
Proof. vm_compute. reflexivity. Qed.

(** The sample configuration is accepted; with a node that does not
    parse it is not. *)
Lemma ApplyConfig_succeeds_iff_witness :
  (exists w', sApplyConfig (Sample.cfg "c1" "web") Sample.w0 = (None, w'))
  /\ ~ (exists w',
          ApplyConfig Sample.quote Sample.url_Parse_strict Sample.Validate
            Sample.cfg_bad_node Sample.w0 = (None, w')).
Proof.
  split.
  - apply (proj2 (ApplyConfig_succeeds_iff Sample.quote Sample.url_Parse
                    Sample.Validate (Sample.cfg "c1" "web") Sample.w0)).
    split; [reflexivity|]. split.
    + repeat constructor; eexists; vm_compute; reflexivity.
    + repeat constructor. unfold dangling. simpl. intros Hn. apply Hn.
      apply list_elem_of_here.
  - intros Hex.
    apply (proj1 (ApplyConfig_succeeds_iff Sample.quote Sample.url_Parse_strict
                    Sample.Validate Sample.cfg_bad_node Sample.w0)) in Hex
      as (_ & Hp & _).
    apply Forall_inv in Hp. apply Forall_inv_tail, Forall_inv in Hp.
    destruct Hp as [a Ha]. vm_compute in Ha. discriminate Ha.
Defined.

(** Alice resolves, bob's cluster is not configured, the second alice's
    execution user is not configured: the error is about bob. *)
Lemma ApplyConfig_first_dangling_error_witness :
  sApplyConfig
    (Sample.cfg_users
       [Sample.alice "c1" "web"; Sample.bob "c9" "web";
        Sample.alice "c1" "nobody"]) Sample.w1
  = (Some ("error while mapping user " +:+ Sample.quote "bob"
           +:+ " to cluster " +:+ Sample.quote "c9" +:+ ": no such cluster"),
     Sample.w1).
Proof.
  apply (ApplyConfig_first_dangling_error Sample.quote Sample.url_Parse
           Sample.Validate
           (Sample.cfg_users
              [Sample.alice "c1" "web"; Sample.bob "c9" "web";
               Sample.alice "c1" "nobody"]) Sample.w1
           [Sample.alice "c1" "web"] (Sample.bob "c9" "web")
           [Sample.alice "c1" "nobody"]).
  - reflexivity.
  - repeat constructor; eexists; vm_compute; reflexivity.
  - reflexivity.
  - repeat constructor. unfold dangling. simpl. intros Hn. apply Hn.
    apply list_elem_of_here.
  - vm_compute. exact I.
Defined.

Lemma ApplyConfig_installed_clusters_witness :
  (exists c',
     rp_clusters (rp Sample.installed) !! "c1" = Some c'
     /\ Forall2 (fun node h =>
                   Sample.url_Parse ("http" +:+ "://" +:+ node) = Ok (addr h)
                   /\ runningQueries h = 0%N)
                ["n1:8123"; "n2:8123"] (hosts c')
     /\ (forall m, users c' !! m
                   = executionUserOf <$> findOutUser [Sample.web] m))
  /\ rp_clusters (rp Sample.installed) !! "c2" = None.
Proof.
  split.
  - exact (ApplyConfig_installed_clusters Sample.quote Sample.url_Parse
             Sample.Validate (Sample.cfg "c1" "web") Sample.w0 Sample.installed
             "c1" sample_applied).
  - exact (ApplyConfig_installed_clusters Sample.quote Sample.url_Parse
             Sample.Validate (Sample.cfg "c1" "web") Sample.w0 Sample.installed
             "c2" sample_applied).
Defined.

Lemma ApplyConfig_installed_initial_users_witness :
  rp_users (rp Sample.installed) !! "alice"
    = Some (initialUserOf (Sample.alice "c1" "web"))
  /\ rp_users (rp Sample.installed) !! "bob" = None.
Proof.
  split.
  - exact (ApplyConfig_installed_initial_users Sample.quote Sample.url_Parse
             Sample.Validate (Sample.cfg "c1" "web") Sample.w0 Sample.installed
             "alice" sample_applied).
  - exact (ApplyConfig_installed_initial_users Sample.quote Sample.url_Parse
             Sample.Validate (Sample.cfg "c1" "web") Sample.w0 Sample.installed
             "bob" sample_applied).
Defined.

Lemma ApplyConfig_no_dangling_reference_witness :
  (forall n iu, rp_users (rp Sample.installed) !! n = Some iu ->
     exists c eu, rp_clusters (rp Sample.installed) !! toCluster iu = Some c
                  /\ users c !! toUser iu = Some eu)
  /\ (forall (req : string * string) e,
        sGetRequestScope (rp Sample.installed) req = Err e ->
        e = errInvalidCredentials Sample.quote (Sample.basicAuth req).1).
Proof.
  exact (ApplyConfig_no_dangling_reference Sample.quote Sample.url_Parse
           Sample.Validate (string * string) Sample.basicAuth
           (Sample.cfg "c1" "web") Sample.w0 Sample.installed sample_applied).
Defined.

(** The configuration gives alice no password here, bob the password
    hunter2: after the configuration is applied bob is let in with the
    empty password and refused with his own. *)
Lemma ApplyConfig_initial_user_password_empty_witness :
  GlobalUser_Password (Sample.bob "c1" "web") = "hunter2"
  /\ (exists w' s,
        sApplyConfig (Sample.cfg_users [Sample.bob "c1" "web"]) Sample.w0
          = (None, w')
        /\ sGetRequestScope (rp w') ("bob", EmptyString) = Ok s
        /\ password (embedded (s_initialUser s)) = EmptyString
        /\ name (embedded (s_initialUser s)) = "bob"
        /\ sGetRequestScope (rp w') ("bob", "hunter2")
           = Err (errInvalidCredentials Sample.quote "bob")).
Proof.
  split; [reflexivity|].
  eexists _, _.
  split; [vm_compute; reflexivity|].
  split; [vm_compute; reflexivity|].
  split; [|split; [|vm_compute; reflexivity]].
  - eapply (ApplyConfig_initial_user_password_empty Sample.quote
              Sample.url_Parse Sample.Validate (string * string)
              Sample.basicAuth (Sample.cfg_users [Sample.bob "c1" "web"])
              Sample.w0 _ ("bob", EmptyString)); vm_compute; reflexivity.
  - eapply (ApplyConfig_initial_user_password_empty Sample.quote
              Sample.url_Parse Sample.Validate (string * string)
              Sample.basicAuth (Sample.cfg_users [Sample.bob "c1" "web"])
              Sample.w0 _ ("bob", EmptyString)); vm_compute; reflexivity.
Defined.

Lemma ApplyConfig_getHost_first_node_witness :
  Forall (fun h => runningQueries h = 0%N)
         [Sample.host_at "n1:8123" 0; Sample.host_at "n2:8123" 0]
  /\ getHost {| hosts := [Sample.host_at "n1:8123" 0; Sample.host_at "n2:8123" 0];
                users := {[ "web" := executionUserOf Sample.web ]} |}
     = Some (Sample.host_at "n1:8123" 0).
Proof.
  apply (ApplyConfig_getHost_first_node Sample.quote Sample.url_Parse
           Sample.Validate (Sample.cfg "c1" "web") Sample.w0 Sample.installed
           "c1"
           {| hosts := [Sample.host_at "n1:8123" 0; Sample.host_at "n2:8123" 0];
              users := {[ "web" := executionUserOf Sample.web ]} |}).
  - exact sample_applied.
  - vm_compute. reflexivity.
Defined.

Lemma getRequestScope_scope_sound_witness :
  rp_users (Sample.proxy Sample.two_hosts "c1" "web") !! "alice"
    = Some (Sample.iu_alice "c1" "web")
  /\ password (embedded (Sample.iu_alice "c1" "web")) = "pw"
  /\ rp_clusters (Sample.proxy Sample.two_hosts "c1" "web") !! "c1"
     = Some (Sample.cl Sample.two_hosts)
  /\ users (Sample.cl Sample.two_hosts) !! "web" = Some Sample.eu_web
  /\ Some (Sample.host_at "n2:8123" 1) = getHost (Sample.cl Sample.two_hosts).
Proof.
  exact (getRequestScope_scope_sound Sample.quote (string * string)
           Sample.basicAuth (Sample.proxy Sample.two_hosts "c1" "web")
           ("alice", "pw") Sample.scope_alice sample_scope_alice).
Defined.

Lemma getRequestScope_least_loaded_host_witness :
  exists i h,
    Some (Sample.host_at "n2:8123" 1) = Some h
    /\ first_least Sample.two_hosts i h.
Proof.
  apply (getRequestScope_least_loaded_host Sample.quote (string * string)
           Sample.basicAuth (Sample.proxy Sample.two_hosts "c1" "web")
           ("alice", "pw") Sample.scope_alice sample_scope_alice).
  discriminate.
Defined.

Lemma getHost_None_iff_witness :
  getHost (Sample.cl []) = None
  /\ getHost (Sample.cl Sample.two_hosts) <> None.
Proof.
  split.
  - apply (proj2 (getHost_None_iff (Sample.cl []))). reflexivity.
  - intros Hnone.
    apply (proj1 (getHost_None_iff (Sample.cl Sample.two_hosts))) in Hnone.
    discriminate Hnone.
Defined.

Example RoundTrip_refused_connection :
  RoundTrip Sample.quote "n1:8123" None (Some "connection refused")
  = mkIO [EvCounterInc "request_errors" ["n1:8123"; "connection refused"]]
         (Returned (None, Some "connection refused")).
Proof. reflexivity. Qed.

(** Alice's request goes to the second host; her limit fires. *)
Lemma ServeHTTP_counters_witness :
  counterIncs "request_sum"
    (trace (sServeHTTP Sample.accept_all
              (Sample.proxy Sample.two_hosts "c1" "web") ("alice", "pw")
              InitialUserTimeout))
    = [["alice"; "web"; "n2:8123"]]
  /\ counterIncs "request_timeouts"
       (trace (sServeHTTP Sample.accept_all
                 (Sample.proxy Sample.two_hosts "c1" "web") ("alice", "pw")
                 InitialUserTimeout))
     = [["alice"; "web"; "n2:8123"]]
  /\ counterIncs "request_success"
       (trace (sServeHTTP Sample.accept_all
                 (Sample.proxy Sample.two_hosts "c1" "web") ("alice", "pw")
                 InitialUserTimeout))
     = [].
Proof.
  exact (ServeHTTP_counters Sample.quote Sample.Duration_String Z
           Sample.Seconds Sample.int_of_seconds (string * string)
           Sample.basicAuth Sample.accept_all
           (Sample.proxy Sample.two_hosts "c1" "web") ("alice", "pw")
           InitialUserTimeout Sample.scope_alice (Sample.host_at "n2:8123" 1)
           sample_scope_alice eq_refl eq_refl).
Defined.

Lemma ServeHTTP_forward_and_answer_witness :
  forwards (trace (sServeHTTP Sample.accept_all
                     (Sample.proxy Sample.two_hosts "c1" "web") ("alice", "pw")
                     ExecutionUserTimeout))
    = [("http", "n2:8123", "ClickHouseProxy: alice")]
  /\ cancels (trace (sServeHTTP Sample.accept_all
                       (Sample.proxy Sample.two_hosts "c1" "web") ("alice", "pw")
                       ExecutionUserTimeout))
     = 1%nat
  /\ writes (trace (sServeHTTP Sample.accept_all
                      (Sample.proxy Sample.two_hosts "c1" "web") ("alice", "pw")
                      ExecutionUserTimeout))
     = ["timeout for execution user " +:+ Sample.quote "web"
        +:+ " exceeded: " +:+ "30000000000ns"].
Proof.
  exact (ServeHTTP_forward_and_answer Sample.quote Sample.Duration_String Z
           Sample.Seconds Sample.int_of_seconds (string * string)
           Sample.basicAuth Sample.accept_all
           (Sample.proxy Sample.two_hosts "c1" "web") ("alice", "pw")
           ExecutionUserTimeout Sample.scope_alice (Sample.host_at "n2:8123" 1)
           sample_scope_alice eq_refl eq_refl).
Defined.

(** A configuration that is refused, and one that is accepted. *)
Lemma NewReverseProxy_result_witness :
  (exists e w,
     sNewReverseProxy (Sample.cfg "c9" "web") false = (w, Some e)
     /\ w = Sample.w0
     /\ forall req : string * string,
          sGetRequestScope (rp w) req
          = Err (errInvalidCredentials Sample.quote (Sample.basicAuth req).1))
  /\ (sNewReverseProxy (Sample.cfg "c1" "web") false = (Sample.installed, None)
      /\ buildTopology Sample.quote Sample.url_Parse (Sample.cfg "c1" "web")
         = Ok (rp Sample.installed)
      /\ debug Sample.installed = true).
Proof.
  split.
  - eexists _, _. split; [vm_compute; reflexivity|].
    eapply (proj1 (NewReverseProxy_result Sample.quote Sample.url_Parse
                     Sample.Validate (string * string) Sample.basicAuth
                     (Sample.cfg "c9" "web") false _)).
    vm_compute. reflexivity.
  - assert (H : sNewReverseProxy (Sample.cfg "c1" "web") false
                = (Sample.installed, None)) by (vm_compute; reflexivity).
    split; [exact H|].
    exact (proj2 (NewReverseProxy_result Sample.quote Sample.url_Parse
                    Sample.Validate (string * string) Sample.basicAuth
                    (Sample.cfg "c1" "web") false Sample.installed) H).
Defined.

(** A file that is missing, and the file that exists. *)
Lemma ReloadConfig_atomic_witness :
  sReloadConfig "missing.yml" Sample.w1
    = (Some ("can't load config " +:+ Sample.quote "missing.yml"
             +:+ ": " +:+ "no such file"), Sample.w1)
  /\ (exists cfg, Sample.LoadFile "config.yml" = Ok cfg
                  /\ buildTopology Sample.quote Sample.url_Parse cfg
                     = Ok (rp Sample.installed)).
Proof.
  split.
  - apply (proj1 (proj2 (ReloadConfig_atomic Sample.quote Sample.url_Parse
                           Sample.Validate Sample.LoadFile "missing.yml"
                           Sample.w1))).
    vm_compute. reflexivity.
  - apply (proj2 (proj2 (ReloadConfig_atomic Sample.quote Sample.url_Parse
                           Sample.Validate Sample.LoadFile "config.yml"
                           Sample.w1))).
    vm_compute. reflexivity.
Defined.

Lemma ApplyConfig_then_getRequestScope_first_node_witness :
  exists a,
    Sample.url_Parse ("http" +:+ "://" +:+ "n1:8123") = Ok a
    /\ Some (Sample.host_at "n1:8123" 0)
       = Some {| addr := a; runningQueries := 0 |}
    /\ "alice" = "alice".
Proof.
  exact (ApplyConfig_then_getRequestScope_first_node Sample.quote
           Sample.url_Parse Sample.Validate (string * string) Sample.basicAuth
           (Sample.cfg "c1" "web") Sample.w0 Sample.installed
           ("alice", EmptyString) _ Sample.c1 "n1:8123" ["n2:8123"]
           sample_applied sample_scope_installed eq_refl eq_refl).
Defined.

